(** * Phrase Bridge: the language registry, the translation service and the
      save-to-file record, embedded from [language_codes.py], [translator.py]
      and [gui.py]. *)

From Stdlib Require Import List NArith Ascii String Bool Lia.
From Stdlib Require Import Sorted Permutation DecimalString.
Import ListNotations.

(** ** Python strings

    A Python [str] is a sequence of Unicode code points; [len] counts code
    points and comparison is lexicographic on them. *)

Module PyStr.

Definition pystr := list N.

(** A source literal (all literals of the three files used here are ASCII). *)
Definition py (s : string) : pystr := map N_of_ascii (list_ascii_of_string s).

Definition len (s : pystr) : N := N.of_nat (List.length s).

(** Truth value of a [str]: the empty string is falsy. *)
Definition truthy (s : pystr) : bool :=
  match s with [] => false | _ :: _ => true end.

Fixpoint str_eqb (a b : pystr) : bool :=
  match a, b with
  | [], [] => true
  | x :: a', y :: b' => N.eqb x y && str_eqb a' b'
  | _, _ => false
  end.

(** [a < b] on strings. *)
Fixpoint str_ltb (a b : pystr) : bool :=
  match a, b with
  | _, [] => false
  | [], _ :: _ => true
  | x :: a', y :: b' => N.ltb x y || (N.eqb x y && str_ltb a' b')
  end.

Fixpoint startswith (s prefix : pystr) {struct prefix} : bool :=
  match prefix, s with
  | [], _ => true
  | p :: prefix', c :: s' => N.eqb p c && startswith s' prefix'
  | _ :: _, [] => false
  end.

(** [needle in s]. *)
Fixpoint contains (needle s : pystr) : bool :=
  startswith s needle ||
  match s with
  | [] => false
  | _ :: s' => contains needle s'
  end.

(** [str.isspace] on one code point: the whitespace table of the Unicode
    database that [str.strip()] consults. *)
Definition is_space (c : N) : bool :=
  ((9 <=? c) && (c <=? 13) || (28 <=? c) && (c <=? 32)
   || (c =? 133) || (c =? 160) || (c =? 5760)
   || (8192 <=? c) && (c <=? 8202)
   || (c =? 8232) || (c =? 8233) || (c =? 8239) || (c =? 8287)
   || (c =? 12288))%N.

Fixpoint lstrip (s : pystr) : pystr :=
  match s with
  | [] => []
  | c :: s' => if is_space c then lstrip s' else s
  end.

Definition rstrip (s : pystr) : pystr := rev (lstrip (rev s)).

Definition strip (s : pystr) : pystr := rstrip (lstrip s).

(** [str(n)] for a non-negative [int]. *)
Definition str_of_int (n : N) : pystr := py (NilZero.string_of_uint (N.to_uint n)).

(** [s.split("\n")]. *)
Fixpoint split_lines_aux (cur : pystr) (s : pystr) : list pystr :=
  match s with
  | [] => [rev cur]
  | c :: s' =>
      if (c =? 10)%N then rev cur :: split_lines_aux [] s'
      else split_lines_aux (c :: cur) s'
  end.

Definition split_lines (s : pystr) : list pystr := split_lines_aux [] s.

(** [sorted(l)] on strings.  Python's sort is stable, and a stable sort has
    one possible result; insertion after the elements that are not greater
    computes it. *)
Fixpoint insert_sorted (x : pystr) (l : list pystr) : list pystr :=
  match l with
  | [] => [x]
  | y :: l' => if str_ltb x y then x :: l else y :: insert_sorted x l'
  end.

Fixpoint sorted (l : list pystr) : list pystr :=
  match l with
  | [] => []
  | x :: l' => insert_sorted x (sorted l')
  end.

(** No string occurs twice in [l]. *)
Fixpoint all_distinct (l : list pystr) : bool :=
  match l with
  | [] => true
  | x :: l' => negb (existsb (str_eqb x) l') && all_distinct l'
  end.

(** [str.lower] restricted to ASCII letters, an instance of the case mapping
    for the examples below. *)
Definition ascii_lower (s : pystr) : pystr :=
  map (fun c => if ((65 <=? c) && (c <=? 90))%N then (c + 32)%N else c) s.

End PyStr.

Import PyStr.

(** ** language_codes.py *)

Module language_codes.

(** The [LANGUAGES] dict literal.  A dict keeps insertion order, which
    [get_language_name] observes, so it is kept as an association list. *)
Definition LANGUAGES : list (pystr * pystr) :=
  Eval cbv in
  map (fun p => (py (fst p), py (snd p)))
  [ ("Auto Detect", "auto"); ("English", "en"); ("Spanish", "es");
    ("French", "fr"); ("German", "de"); ("Italian", "it");
    ("Portuguese", "pt"); ("Russian", "ru");
    ("Chinese (Simplified)", "zh-cn"); ("Chinese (Traditional)", "zh-tw");
    ("Japanese", "ja"); ("Korean", "ko"); ("Arabic", "ar"); ("Hindi", "hi");
    ("Dutch", "nl"); ("Polish", "pl"); ("Turkish", "tr"); ("Swedish", "sv");
    ("Norwegian", "no"); ("Danish", "da"); ("Finnish", "fi"); ("Greek", "el");
    ("Hebrew", "he"); ("Thai", "th"); ("Vietnamese", "vi");
    ("Indonesian", "id"); ("Malay", "ms"); ("Czech", "cs");
    ("Hungarian", "hu"); ("Romanian", "ro"); ("Bulgarian", "bg");
    ("Croatian", "hr"); ("Slovak", "sk"); ("Slovenian", "sl");
    ("Estonian", "et"); ("Latvian", "lv"); ("Lithuanian", "lt");
    ("Ukrainian", "uk"); ("Bengali", "bn"); ("Tamil", "ta"); ("Telugu", "te");
    ("Gujarati", "gu"); ("Marathi", "mr"); ("Punjabi", "pa"); ("Urdu", "ur");
    ("Persian", "fa"); ("Swahili", "sw"); ("Afrikaans", "af");
    ("Albanian", "sq"); ("Armenian", "hy"); ("Azerbaijani", "az");
    ("Basque", "eu"); ("Belarusian", "be"); ("Bosnian", "bs");
    ("Catalan", "ca"); ("Filipino", "tl"); ("Galician", "gl");
    ("Georgian", "ka"); ("Icelandic", "is"); ("Irish", "ga"); ("Kazakh", "kk");
    ("Kurdish", "ku"); ("Kyrgyz", "ky"); ("Latin", "la");
    ("Luxembourgish", "lb"); ("Macedonian", "mk"); ("Maltese", "mt");
    ("Mongolian", "mn"); ("Nepali", "ne"); ("Pashto", "ps"); ("Serbian", "sr");
    ("Sinhala", "si"); ("Tajik", "tg"); ("Uzbek", "uz"); ("Welsh", "cy");
    ("Yiddish", "yi") ]%string.

(** [d.keys()] and [d.values()], in insertion order. *)
Definition keys (d : list (pystr * pystr)) : list pystr := map fst d.
Definition values (d : list (pystr * pystr)) : list pystr := map snd d.

(** [d.get(k, default)]. *)
Fixpoint dict_get (d : list (pystr * pystr)) (k default : pystr) : pystr :=
  match d with
  | [] => default
  | (k', v) :: d' => if str_eqb k' k then v else dict_get d' k default
  end.

Definition get_language_names : list pystr := sorted (keys LANGUAGES).

Definition get_language_code (language_name : pystr) : pystr :=
  dict_get LANGUAGES language_name (py "en").

(** The [for name, code in LANGUAGES.items()] loop, over any dict. *)
Fixpoint first_name_with_code (items : list (pystr * pystr))
    (language_code : pystr) : pystr :=
  match items with
  | [] => py "English"
  | (name, code) :: items' =>
      if str_eqb code language_code then name
      else first_name_with_code items' language_code
  end.

Definition get_language_name (language_code : pystr) : pystr :=
  first_name_with_code LANGUAGES language_code.

End language_codes.

(** ** translator.py *)

Module translator.

(** *** Exceptions

    The classes that can reach the [except] clauses of [translate_text],
    with the part of their inheritance that the clauses test.
    [KeyboardInterrupt] and [SystemExit] derive from [BaseException] only;
    the [requests] classes derive from [Exception] (through
    [RequestException] and [OSError], not listed); [ConnectTimeout] derives
    from both [ConnectionError] and [Timeout].  [OtherError] stands for any
    other subclass of [Exception] ([ValueError], [TypeError], the errors of
    the HTTP client the backend uses, ...). *)
Inductive exc_class :=
| BaseException
| KeyboardInterrupt
| SystemExit
| Exception
| AttributeError
| OtherError
| ConnectionError
| Timeout
| ConnectTimeout
| ReadTimeout
| HTTPError.

Definition exc_class_eqb (a b : exc_class) : bool :=
  match a, b with
  | BaseException, BaseException | KeyboardInterrupt, KeyboardInterrupt
  | SystemExit, SystemExit | Exception, Exception
  | AttributeError, AttributeError | OtherError, OtherError
  | ConnectionError, ConnectionError | Timeout, Timeout
  | ConnectTimeout, ConnectTimeout | ReadTimeout, ReadTimeout
  | HTTPError, HTTPError => true
  | _, _ => false
  end.

(** The class itself followed by its ancestors. *)
Definition mro (c : exc_class) : list exc_class :=
  match c with
  | BaseException => [BaseException]
  | KeyboardInterrupt => [KeyboardInterrupt; BaseException]
  | SystemExit => [SystemExit; BaseException]
  | Exception => [Exception; BaseException]
  | AttributeError => [AttributeError; Exception; BaseException]
  | OtherError => [OtherError; Exception; BaseException]
  | ConnectionError => [ConnectionError; Exception; BaseException]
  | Timeout => [Timeout; Exception; BaseException]
  | ConnectTimeout =>
      [ConnectTimeout; ConnectionError; Timeout; Exception; BaseException]
  | ReadTimeout => [ReadTimeout; Timeout; Exception; BaseException]
  | HTTPError => [HTTPError; Exception; BaseException]
  end.

(** A raised exception: its class and [str(e)]. *)
Record exn := { exc_type : exc_class; exc_str : pystr }.

Definition isinstance (e : exn) (c : exc_class) : bool :=
  existsb (exc_class_eqb c) (mro (exc_type e)).

(** *** Calls into the backend

    A computation either returns a value or raises, and records the calls it
    made to [Translator.translate] (their number is the call counter of a
    fake backend). *)
Inductive res (A : Type) :=
| Val (a : A)
| Exc (e : exn).
Arguments Val {A} a.
Arguments Exc {A} e.

(** [(text, src, dest)] of one backend call. *)
Definition call := (pystr * pystr * pystr)%type.

Definition M (A : Type) : Type := list call -> res A * list call.

Definition ret {A} (a : A) : M A := fun log => (Val a, log).

Definition raise {A} (e : exn) : M A := fun log => (Exc e, log).

Definition bind {A B} (m : M A) (k : A -> M B) : M B :=
  fun log =>
    match m log with
    | (Val a, log') => k a log'
    | (Exc e, log') => (Exc e, log')
    end.

(** [try: body except ...: handler]; a handler re-raises what no clause
    catches. *)
Definition try_except {A} (body : M A) (handler : exn -> M A) : M A :=
  fun log =>
    match body log with
    | (Val a, log') => (Val a, log')
    | (Exc e, log') => handler e log'
    end.

Notation "x <- m ;; k" := (bind m (fun x => k))
  (at level 61, m at next level, right associativity).

(** The object [Translator.translate] returns; only [.text] is read. *)
Record Translated := { text : pystr }.

(** The backend as a black box: what a call returns or raises, given the
    calls made before it.  [None] is Python's [None]. *)
Definition Translator := list call -> call -> res (option Translated).

Definition translator_translate (tr : Translator) (txt src dest : pystr)
  : M (option Translated) :=
  fun log => (tr log (txt, src, dest), log ++ [(txt, src, dest)]).

(** [result.text]. *)
Definition getattr_text (result : option Translated) : M pystr :=
  match result with
  | Some r => ret (text r)
  | None =>
      raise {| exc_type := AttributeError;
               exc_str := py "'NoneType' object has no attribute 'text'" |}
  end.

Record TranslationService := { translator : Translator; max_chars : N }.

(** [__init__]; the backend object is passed in so that a fake one can be
    used. *)
Definition init (tr : Translator) : TranslationService :=
  {| translator := tr; max_chars := 5000 |}.

Section Service.

(** [str.lower]: the Unicode case mapping of the Python runtime. *)
Variable lower : pystr -> pystr.

Definition handle_exception (e : exn) : M (option pystr * option pystr) :=
  if isinstance e ConnectionError then
    ret (None, Some (py "Network error: Please check your internet connection"))
  else if isinstance e Timeout then
    ret (None, Some (py "Translation timeout: Please try again"))
  else if isinstance e HTTPError then
    ret (None, Some (py "Translation service error: " ++ exc_str e))
  else if isinstance e Exception then
    let error_msg := lower (exc_str e) in
    if contains (py "429") error_msg
       || contains (py "too many requests") error_msg then
      ret (None,
           Some (py "Rate limit exceeded: Please wait a moment and try again"))
    else if contains (py "403") error_msg
            || contains (py "forbidden") error_msg then
      ret (None,
           Some (py "Translation service access denied: Please check your connection"))
    else if contains (py "service unavailable") error_msg then
      ret (None, Some (py "Translation service temporarily unavailable"))
    else
      ret (None, Some (py "Translation failed: " ++ exc_str e))
  else raise e.

Definition translate_text (self : TranslationService)
    (txt source_lang target_lang : pystr)
  : M (option pystr * option pystr) :=
  try_except
    (if negb (truthy txt) || negb (truthy (strip txt)) then
       ret (None, Some (py "Please enter text to translate"))
     else if (max_chars self <? len txt)%N then
       ret (None,
            Some (py "Text too long. Maximum " ++ str_of_int (max_chars self)
                  ++ py " characters allowed."))
     else if str_eqb source_lang target_lang
             && negb (str_eqb source_lang (py "auto")) then
       ret (Some txt, None)
     else
       result <- translator_translate (translator self) txt source_lang
                   target_lang ;;
       t <- getattr_text result ;;
       ret (Some t, None))
    handle_exception.

End Service.

(** The bare [except:] catches every exception, [BaseException] included. *)
Definition is_service_available (self : TranslationService) : M bool :=
  try_except
    (test_result <- translator_translate (translator self) (py "test")
                      (py "en") (py "es") ;;
     ret (match test_result with Some _ => true | None => false end))
    (fun _ => ret false).

(** *** The result as the specification names it

    [translate_text] returns the pair [(translated_text, error_message)];
    each [return None, ...] statement has a message of its own, and the
    taxonomy of the specification names the statement that produced it. *)
Inductive ErrorKind :=
| InvalidInput
| NetworkError
| TimeoutError
| BackendError
| RateLimited
| AccessDenied
| Unavailable
| UnknownError.

Inductive TranslationResult :=
| Success (t : pystr)
| Failure (kind : ErrorKind) (message : pystr).

Definition kind_of_message (m : pystr) : option ErrorKind :=
  if str_eqb m (py "Please enter text to translate") then Some InvalidInput
  else if startswith m (py "Text too long. Maximum ") then Some InvalidInput
  else if str_eqb m (py "Network error: Please check your internet connection")
  then Some NetworkError
  else if str_eqb m (py "Translation timeout: Please try again")
  then Some TimeoutError
  else if startswith m (py "Translation service error: ") then Some BackendError
  else if str_eqb m
            (py "Rate limit exceeded: Please wait a moment and try again")
  then Some RateLimited
  else if str_eqb m
            (py "Translation service access denied: Please check your connection")
  then Some AccessDenied
  else if str_eqb m (py "Translation service temporarily unavailable")
  then Some Unavailable
  else if startswith m (py "Translation failed: ") then Some UnknownError
  else None.

Definition result_of (p : option pystr * option pystr)
  : option TranslationResult :=
  match p with
  | (Some t, None) => Some (Success t)
  | (None, Some m) =>
      match kind_of_message m with
      | Some k => Some (Failure k m)
      | None => None
      end
  | _ => None
  end.

End translator.

(** ** gui.py: the language listings and [save_translation] *)

Module gui.

Import language_codes.

(** The widget contents that [save_translation] reads. *)
Record TranslationApp := {
  input_text : pystr;
  output_text : pystr;
  source_lang_var : pystr;
  target_lang_var : pystr
}.

Definition nl : pystr := [10%N].

(** [widget.get("1.0", tk.END)]: Tk returns the content followed by the
    newline it keeps at the end of a text widget. *)
Definition text_get (content : pystr) : pystr := content ++ nl.

(** [s * n]. *)
Definition str_mul (s : pystr) (n : nat) : pystr := List.concat (repeat s n).

(** [values=get_language_names()] of the source combobox. *)
Definition source_lang_values : list pystr := get_language_names.

(** [values=[lang for lang in get_language_names() if lang != "Auto Detect"]]
    of the target combobox. *)
Definition target_lang_values : list pystr :=
  filter (fun lang => negb (str_eqb lang (py "Auto Detect")))
         get_language_names.

(** What a run of [save_translation] does when opening and writing the file
    succeed: it warns, or the dialog was dismissed, or the file holds the
    concatenation of the six [file.write] calls. *)
Inductive save_result :=
| NoTranslationWarning
| DialogCancelled
| FileWritten (file_path content : pystr).

(** The six [file.write] arguments, in order. *)
Definition record_writes (source_lang target_lang source_text translation : pystr)
  : list pystr :=
  [ py "Phrase Bridge Translation" ++ nl;
    py "=" ++ str_mul (py "=") 30 ++ nl ++ nl;
    py "Source Language: " ++ source_lang ++ nl;
    py "Target Language: " ++ target_lang ++ nl ++ nl;
    py "Original Text:" ++ nl ++ source_text ++ nl ++ nl;
    py "Translation:" ++ nl ++ translation ++ nl ].

(** [file_path] is what [filedialog.asksaveasfilename] returned (empty when
    the dialog is dismissed). *)
Definition save_translation (self : TranslationApp) (file_path : pystr)
  : save_result :=
  let translation := strip (text_get (output_text self)) in
  if negb (truthy translation) then NoTranslationWarning
  else if truthy file_path then
    let source_text := strip (text_get (input_text self)) in
    let source_lang := source_lang_var self in
    let target_lang := target_lang_var self in
    FileWritten file_path
      (List.concat (record_writes source_lang target_lang source_text translation))
  else DialogCancelled.

End gui.

Import language_codes translator gui.

(** ** translator.py: [detect_language] *)

Module detection.

(** Computations that return or raise and log their backend calls, for any
    type [L] of logged calls. *)
Section Effects.

Variable L : Type.

Definition Eff (A : Type) : Type := list L -> res A * list L.

Definition eret {A} (a : A) : Eff A := fun log => (Val a, log).

Definition eraise {A} (e : exn) : Eff A := fun log => (Exc e, log).

Definition ebind {A B} (m : Eff A) (k : A -> Eff B) : Eff B :=
  fun log =>
    match m log with
    | (Val a, log') => k a log'
    | (Exc e, log') => (Exc e, log')
    end.

Definition etry {A} (body : Eff A) (handler : exn -> Eff A) : Eff A :=
  fun log =>
    match body log with
    | (Val a, log') => (Val a, log')
    | (Exc e, log') => handler e log'
    end.

End Effects.

Arguments eret {L A} a.
Arguments eraise {L A} e.
Arguments ebind {L A B} m k.
Arguments etry {L A} body handler.

(** The object [Translator.detect] returns; only [.lang] is read. *)
Record Detected := { lang : pystr }.

(** The [detect] method of the backend object: what a call on a text
    returns or raises, given the texts of the calls made before it. *)
Definition Detector := list pystr -> pystr -> res (option Detected).

Definition translator_detect (detect : Detector) (txt : pystr)
  : Eff pystr (option Detected) :=
  fun log => (detect log txt, log ++ [txt]).

(** [detection.lang]. *)
Definition getattr_lang (detection : option Detected) : Eff pystr pystr :=
  match detection with
  | Some d => eret (lang d)
  | None =>
      eraise {| exc_type := AttributeError;
                exc_str := py "'NoneType' object has no attribute 'lang'" |}
  end.

Definition detect_language (detect : Detector) (txt : pystr)
  : Eff pystr (option pystr * option pystr) :=
  etry
    (if negb (truthy txt) || negb (truthy (strip txt)) then
       eret (None, Some (py "No text provided for language detection"))
     else
       ebind (translator_detect detect txt) (fun detection =>
       ebind (getattr_lang detection) (fun l =>
       eret (Some l, None))))
    (fun e =>
       if isinstance e Exception then
         eret (None, Some (py "Language detection failed: " ++ exc_str e))
       else eraise e).

End detection.

(** ** gui.py: the event handlers

    The part of the application state that the handlers below read and
    write: the two text widgets and the two language variables (the record
    [TranslationApp]), the in-flight flag, the values offered by the two
    comboboxes, whether the translate button is enabled, and whether the
    copy, clear and save buttons of the output are (the code always
    configures these three together).  Status messages, statistics, labels
    and styling are not part of it. *)

Module gui_handlers.

Record Gui := {
  widgets : TranslationApp;
  is_translating : bool;
  source_lang_combo_values : list pystr;
  target_lang_combo_values : list pystr;
  translate_button_enabled : bool;
  output_buttons_enabled : bool
}.

Definition with_widgets (s : Gui) (w : TranslationApp) : Gui :=
  {| widgets := w;
     is_translating := is_translating s;
     source_lang_combo_values := source_lang_combo_values s;
     target_lang_combo_values := target_lang_combo_values s;
     translate_button_enabled := translate_button_enabled s;
     output_buttons_enabled := output_buttons_enabled s |}.

Definition set_input_text (s : Gui) (t : pystr) : Gui :=
  with_widgets s
    {| input_text := t;
       output_text := output_text (widgets s);
       source_lang_var := source_lang_var (widgets s);
       target_lang_var := target_lang_var (widgets s) |}.

Definition set_output_text (s : Gui) (t : pystr) : Gui :=
  with_widgets s
    {| input_text := input_text (widgets s);
       output_text := t;
       source_lang_var := source_lang_var (widgets s);
       target_lang_var := target_lang_var (widgets s) |}.

Definition set_source_lang_var (s : Gui) (v : pystr) : Gui :=
  with_widgets s
    {| input_text := input_text (widgets s);
       output_text := output_text (widgets s);
       source_lang_var := v;
       target_lang_var := target_lang_var (widgets s) |}.

Definition set_target_lang_var (s : Gui) (v : pystr) : Gui :=
  with_widgets s
    {| input_text := input_text (widgets s);
       output_text := output_text (widgets s);
       source_lang_var := source_lang_var (widgets s);
       target_lang_var := v |}.

Definition set_source_values (s : Gui) (l : list pystr) : Gui :=
  {| widgets := widgets s;
     is_translating := is_translating s;
     source_lang_combo_values := l;
     target_lang_combo_values := target_lang_combo_values s;
     translate_button_enabled := translate_button_enabled s;
     output_buttons_enabled := output_buttons_enabled s |}.

Definition set_target_values (s : Gui) (l : list pystr) : Gui :=
  {| widgets := widgets s;
     is_translating := is_translating s;
     source_lang_combo_values := source_lang_combo_values s;
     target_lang_combo_values := l;
     translate_button_enabled := translate_button_enabled s;
     output_buttons_enabled := output_buttons_enabled s |}.

Definition set_is_translating (s : Gui) (b : bool) : Gui :=
  {| widgets := widgets s;
     is_translating := b;
     source_lang_combo_values := source_lang_combo_values s;
     target_lang_combo_values := target_lang_combo_values s;
     translate_button_enabled := translate_button_enabled s;
     output_buttons_enabled := output_buttons_enabled s |}.

Definition set_translate_button (s : Gui) (b : bool) : Gui :=
  {| widgets := widgets s;
     is_translating := is_translating s;
     source_lang_combo_values := source_lang_combo_values s;
     target_lang_combo_values := target_lang_combo_values s;
     translate_button_enabled := b;
     output_buttons_enabled := output_buttons_enabled s |}.

Definition set_output_buttons (s : Gui) (b : bool) : Gui :=
  {| widgets := widgets s;
     is_translating := is_translating s;
     source_lang_combo_values := source_lang_combo_values s;
     target_lang_combo_values := target_lang_combo_values s;
     translate_button_enabled := translate_button_enabled s;
     output_buttons_enabled := b |}.

(** The state [__init__] and [create_widgets] leave. *)
Definition initial : Gui :=
  {| widgets := {| input_text := []; output_text := [];
                   source_lang_var := py "Auto Detect";
                   target_lang_var := py "Spanish" |};
     is_translating := false;
     source_lang_combo_values := source_lang_values;
     target_lang_combo_values := target_lang_values;
     translate_button_enabled := true;
     output_buttons_enabled := false |}.

Definition on_text_change (s : Gui) : Gui :=
  let txt := strip (text_get (input_text (widgets s))) in
  let char_count := len txt in
  if (0 <? char_count)%N && negb (is_translating s) then
    set_translate_button s true
  else set_translate_button s false.

Definition on_language_change (s : Gui) : Gui :=
  if str_eqb (target_lang_var (widgets s)) (py "Auto Detect") then
    set_target_lang_var s (py "English")
  else s.

Section Search.

Variable lower : pystr -> pystr.

(** The loop [for lang in all_languages: if lang.lower() == search_text:
    set(lang); break]. *)
Definition exact_match (search_text : pystr) (all_languages : list pystr)
  : option pystr :=
  find (fun l => str_eqb (lower l) search_text) all_languages.

Definition on_source_lang_search (s : Gui) : Gui :=
  let search_text := lower (source_lang_var (widgets s)) in
  if truthy search_text then
    let all_languages := get_language_names in
    let filtered_languages :=
      filter (fun l => contains search_text (lower l)) all_languages in
    let s1 := set_source_values s filtered_languages in
    match exact_match search_text all_languages with
    | Some l => set_source_lang_var s1 l
    | None => s1
    end
  else set_source_values s get_language_names.

Definition on_target_lang_search (s : Gui) : Gui :=
  let search_text := lower (target_lang_var (widgets s)) in
  if truthy search_text then
    let all_languages :=
      filter (fun l => negb (str_eqb l (py "Auto Detect")))
             get_language_names in
    let filtered_languages :=
      filter (fun l => contains search_text (lower l)) all_languages in
    let s1 := set_target_values s filtered_languages in
    match exact_match search_text all_languages with
    | Some l => set_target_lang_var s1 l
    | None => s1
    end
  else
    set_target_values s
      (filter (fun l => negb (str_eqb l (py "Auto Detect")))
              get_language_names).

End Search.

Definition clear_output (s : Gui) : Gui :=
  set_output_buttons (set_output_text s []) false.

Definition clear_input (s : Gui) : Gui :=
  on_text_change (set_input_text s []).

Definition swap_languages (s : Gui) : Gui :=
  let source := source_lang_var (widgets s) in
  let target := target_lang_var (widgets s) in
  if str_eqb source (py "Auto Detect") then s
  else
    let s1 := set_target_lang_var (set_source_lang_var s target) source in
    let output := strip (text_get (output_text (widgets s1))) in
    if truthy output then clear_output (set_input_text s1 output)
    else s1.

(** [clipboard_text] is what [pyperclip.paste()] returned. *)
Definition paste_text (clipboard_text : pystr) (s : Gui) : Gui :=
  if truthy clipboard_text then
    on_text_change (set_input_text s clipboard_text)
  else s.

Definition start_translation (s : Gui) : Gui :=
  set_translate_button (set_is_translating s true) false.

(** What [translate_text] does: nothing while a translation is in flight, a
    warning for an empty input, or a request [(text, source code, target
    code)] handed to the worker thread. *)
Inductive translate_outcome :=
| Ignored
| EmptyInputWarning
| Started (request : call) (s' : Gui).

Definition translate_text (s : Gui) : translate_outcome :=
  if is_translating s then Ignored
  else
    let input := strip (text_get (input_text (widgets s))) in
    if negb (truthy input) then EmptyInputWarning
    else
      let source_lang := get_language_code (source_lang_var (widgets s)) in
      let target_lang := get_language_code (target_lang_var (widgets s)) in
      Started (input, source_lang, target_lang) (start_translation s).







(** Truth value of an optional string: [None] and [""] are falsy. *)
Definition truthy_opt (o : option pystr) : bool :=
  match o with
  | Some t => truthy t
  | None => false
  end.

(** The new state and the message of the error dialog, when one is shown. *)
Definition translation_complete (s : Gui)
    (translated_text error : option pystr) : Gui * option pystr :=
  let s1 := set_translate_button (set_is_translating s false) true in
  if truthy_opt error then (on_text_change s1, error)
  else if truthy_opt translated_text then
    let t := match translated_text with Some t => t | None => [] end in
    (on_text_change (set_output_buttons (set_output_text s1 t) true), None)
  else (on_text_change s1, None).

(** What can happen to a running application: the user edits a widget (Tk
    changes the content, then the bound handler runs), presses a button or
    a shortcut, or a worker delivers its result. *)
Inductive event :=
| EditInput (t : pystr)
| TypeSource (v : pystr)
| TypeTarget (v : pystr)
| SelectSource (v : pystr)
| SelectTarget (v : pystr)
| Swap
| Paste (clipboard_text : pystr)
| ClearInput
| ClearOutput
| Translate
| Complete (translated_text error : option pystr).

Section Loop.

Variable lower : pystr -> pystr.

Definition step (s : Gui) (ev : event) : Gui :=
  match ev with
  | EditInput t => on_text_change (set_input_text s t)
  | TypeSource v => on_source_lang_search lower (set_source_lang_var s v)
  | TypeTarget v => on_target_lang_search lower (set_target_lang_var s v)
  | SelectSource v => on_language_change (set_source_lang_var s v)
  | SelectTarget v => on_language_change (set_target_lang_var s v)
  | Swap => swap_languages s
  | Paste c => paste_text c s
  | ClearInput => clear_input s
  | ClearOutput => clear_output s
  | Translate =>
      match translate_text s with
      | Started _ s' => s'
      | _ => s
      end
  | Complete t e => fst (translation_complete s t e)
  end.

Definition run (s : Gui) (events : list event) : Gui :=
  fold_left step events s.

End Loop.

End gui_handlers.

(** * Vocabulary of the properties *)

(** [a <= b] on strings. *)
Definition str_le (a b : pystr) : Prop := str_ltb b a = false.

(** The text is non-empty after trimming and no longer than [max_chars]. *)
Definition passes_validation (self : TranslationService) (txt : pystr) : Prop :=
  strip txt <> [] /\ (len txt <= max_chars self)%N.

(** Source and target are the same language code, other than ["auto"]. *)
Definition same_language (source_lang target_lang : pystr) : Prop :=
  source_lang = target_lang /\ source_lang <> py "auto".

(** The backend call of [translate_text], started from [log], raises [e]. *)
Definition backend_raises (self : TranslationService)
    (txt source_lang target_lang : pystr) (log : list call) (e : exn) : Prop :=
  passes_validation self txt /\ ~ same_language source_lang target_lang /\
  translator self log (txt, source_lang, target_lang) = Exc e.

(** The message matches ["429"] or ["too many requests"] once lowered. *)
Definition mentions_rate_limit (lower : pystr -> pystr) (e : exn) : bool :=
  contains (py "429") (lower (exc_str e))
  || contains (py "too many requests") (lower (exc_str e)).

Definition mentions_forbidden (lower : pystr -> pystr) (e : exn) : bool :=
  contains (py "403") (lower (exc_str e))
  || contains (py "forbidden") (lower (exc_str e)).

Definition mentions_unavailable (lower : pystr -> pystr) (e : exn) : bool :=
  contains (py "service unavailable") (lower (exc_str e)).

(** The classification as the specification words it: an ordered list of
    (predicate, kind) rules, the first matching rule deciding, and
    [UnknownError] when none matches. *)
Definition classification_rules (lower : pystr -> pystr)
  : list ((exn -> bool) * ErrorKind) :=
  [ (fun e => isinstance e ConnectionError, NetworkError);
    (fun e => isinstance e Timeout, TimeoutError);
    (fun e => isinstance e HTTPError, BackendError);
    (mentions_rate_limit lower, RateLimited);
    (mentions_forbidden lower, AccessDenied);
    (mentions_unavailable lower, Unavailable) ].

Definition classify (lower : pystr -> pystr) (e : exn) : ErrorKind :=
  match find (fun rule => fst rule e) (classification_rules lower) with
  | Some (_, kind) => kind
  | None => UnknownError
  end.

(** The returned pair has exactly one component that is not [None]. *)
Definition one_component (p : option pystr * option pystr) : Prop :=
  (exists t, p = (Some t, None)) \/ (exists m, p = (None, Some m)).

(** The statement that every exception of the backend call whose lowered
    message mentions rate limiting is reported as [RateLimited], whatever
    its class. *)
Definition rate_limited_whatever_class (lower : pystr -> pystr) : Prop :=
  forall self txt source_lang target_lang log e,
    backend_raises self txt source_lang target_lang log e ->
    mentions_rate_limit lower e = true ->
    exists m log',
      translate_text lower self txt source_lang target_lang log
      = (Val (None, Some m), log')
      /\ kind_of_message m = Some RateLimited.

(** The statement that every exception of the backend call is reported with
    the kind the rule list gives it, [UnknownError] keeping the message. *)
Definition every_exception_classified (lower : pystr -> pystr) : Prop :=
  forall self txt source_lang target_lang log e,
    backend_raises self txt source_lang target_lang log e ->
    exists m,
      translate_text lower self txt source_lang target_lang log
      = (Val (None, Some m), log ++ [(txt, source_lang, target_lang)])
      /\ kind_of_message m = Some (classify lower e)
      /\ (classify lower e = UnknownError ->
          m = py "Translation failed: " ++ exc_str e).

(** The statement that [translate_text] returns a pair with one component
    set, whatever the backend does. *)
Definition always_returns_pair (lower : pystr -> pystr) : Prop :=
  forall self txt source_lang target_lang log,
    exists p log',
      translate_text lower self txt source_lang target_lang log
      = (Val p, log')
      /\ one_component p.

(** The layout of the saved record as the specification lists it: a title
    line, a separator line, then at once the two language lines and a blank
    line, the rest of the record following. *)
Definition layout_as_listed (self : TranslationApp) (content : pystr) : Prop :=
  exists title separator rest,
    split_lines content
    = title :: separator
      :: (py "Source Language: " ++ source_lang_var self)
      :: (py "Target Language: " ++ target_lang_var self)
      :: [] :: rest.

(** Fake backends: one that raises [e] on every call, one that returns the
    translation [t] on every call. *)
Definition backend_raising (e : exn) : Translator := fun _ _ => Exc e.

Definition backend_returning (t : pystr) : Translator :=
  fun _ _ => Val (Some {| text := t |}).

(** The canary call of [is_service_available]. *)
Definition canary : call := (py "test", py "en", py "es").

(** The statement that every written record has the layout as listed. *)
Definition every_record_as_listed : Prop :=
  forall self file_path content,
    save_translation self file_path = FileWritten file_path content ->
    layout_as_listed self content.

(** A saved translation: English "hello" to Spanish "hola". *)
Definition hello_hola : TranslationApp :=
  {| input_text := py "hello"; output_text := py "hola";
     source_lang_var := py "English"; target_lang_var := py "Spanish" |}.

(** No worker result is among the events. *)
Definition not_complete (ev : gui_handlers.event) : Prop :=
  match ev with
  | gui_handlers.Complete _ _ => False
  | _ => True
  end.

(** The copy, clear and save buttons of the output are enabled exactly when
    the output widget holds text. *)
Definition output_buttons_match (s : gui_handlers.Gui) : Prop :=
  gui_handlers.output_buttons_enabled s = true
  <-> output_text (gui_handlers.widgets s) <> [].

(** The fields that the searches, selections and edits of the input leave
    alone: the in-flight flag, the output text and its buttons. *)
Definition same_output (s s' : gui_handlers.Gui) : Prop :=
  gui_handlers.is_translating s' = gui_handlers.is_translating s
  /\ gui_handlers.output_buttons_enabled s'
     = gui_handlers.output_buttons_enabled s
  /\ output_text (gui_handlers.widgets s')
     = output_text (gui_handlers.widgets s).

(** * Properties *)

(** ** Strings *)

Lemma str_eqb_eq (a b : pystr) : str_eqb a b = true <-> a = b.
Proof.
  revert b; induction a as [|x a IH]; intros [|y b]; simpl; split;
    try congruence; try reflexivity.
  - intros H. apply andb_true_iff in H as [Hx Hab].
    apply N.eqb_eq in Hx. apply IH in Hab. congruence.
  - intros H. injection H as -> ->. rewrite N.eqb_refl. simpl.
    now apply IH.
Qed.

Lemma str_eqb_refl (a : pystr) : str_eqb a a = true.
Proof. now apply str_eqb_eq. Qed.

Lemma str_eqb_neq (a b : pystr) : str_eqb a b = false <-> a <> b.
Proof.
  destruct (str_eqb a b) eqn:E; split; try congruence.
  - apply str_eqb_eq in E. intros H. contradiction.
  - intros _ H. apply str_eqb_eq in H. congruence.
Qed.

Lemma strip_nil : strip [] = [].
Proof. reflexivity. Qed.

Lemma truthy_true (s : pystr) : s <> [] -> truthy s = true.
Proof. destruct s; [congruence | reflexivity]. Qed.

Lemma strip_nonempty_truthy (s : pystr) : strip s <> [] -> truthy s = true.
Proof. destruct s; [rewrite strip_nil; congruence | reflexivity]. Qed.

(** ** The language registry *)

Example strip_spaces : strip (py "  hello world  ") = py "hello world".
Proof. reflexivity. Qed.

Example contains_lowered :
  contains (py "too many requests")
           (ascii_lower (py "HTTP Error 429: Too Many Requests")) = true.
Proof. reflexivity. Qed.

Example str_of_int_5000 : str_of_int 5000 = py "5000".
Proof. reflexivity. Qed.

Example first_names_sorted :
  firstn 6 get_language_names
  = map py [ "Afrikaans"; "Albanian"; "Arabic"; "Armenian"; "Auto Detect";
             "Azerbaijani" ]%string.
Proof. reflexivity. Qed.

Example connect_timeout_is_both :
  isinstance {| exc_type := ConnectTimeout; exc_str := [] |} ConnectionError
  = true
  /\ isinstance {| exc_type := ConnectTimeout; exc_str := [] |} Timeout = true.
Proof. split; reflexivity. Qed.

Lemma existsb_str_eqb_false (x : pystr) (l : list pystr) :
  existsb (str_eqb x) l = false -> ~ In x l.
Proof.
  intros E Hin.
  assert (existsb (str_eqb x) l = true)
    by (apply existsb_exists; exists x; split;
        [assumption | apply str_eqb_refl]).
  congruence.
Qed.

Lemma all_distinct_NoDup (l : list pystr) : all_distinct l = true -> NoDup l.
Proof.
  induction l as [|x l IH]; simpl; intros H; constructor.
  - apply andb_true_iff in H as [H _]. apply negb_true_iff in H.
    now apply existsb_str_eqb_false.
  - apply IH. now apply andb_true_iff in H as [_ H].
Qed.

(** Names are dict keys, so no name occurs twice in the literal. *)
Lemma LANGUAGES_keys_NoDup : NoDup (keys LANGUAGES).
Proof. apply all_distinct_NoDup. vm_compute. reflexivity. Qed.

Lemma dict_get_not_in (d : list (pystr * pystr)) (k default : pystr) :
  ~ In k (keys d) -> dict_get d k default = default.
Proof.
  induction d as [|[k' v] d IH]; simpl; intros H; [reflexivity|].
  destruct (str_eqb k' k) eqn:E.
  - apply str_eqb_eq in E. exfalso. apply H. now left.
  - apply IH. intros Hin. apply H. now right.
Qed.

Lemma first_name_not_in (d : list (pystr * pystr)) (c : pystr) :
  ~ In c (values d) -> first_name_with_code d c = py "English".
Proof.
  induction d as [|[n c'] d IH]; simpl; intros H; [reflexivity|].
  destruct (str_eqb c' c) eqn:E.
  - apply str_eqb_eq in E. exfalso. apply H. now left.
  - apply IH. intros Hin. apply H. now right.
Qed.

Lemma first_name_in (d : list (pystr * pystr)) (c : pystr) :
  In c (values d) ->
  exists before name after,
    d = before ++ (name, c) :: after /\
    ~ In c (values before) /\
    first_name_with_code d c = name.
Proof.
  induction d as [|[n c'] d IH]; simpl; intros H; [contradiction|].
  destruct (str_eqb c' c) eqn:E.
  - apply str_eqb_eq in E. subst c'. exists [], n, d. simpl. auto.
  - assert (Hin : In c (values d)).
    { destruct H as [H|H]; [|assumption].
      apply str_eqb_neq in E. contradiction. }
    destruct (IH Hin) as (before & name & after & Hd & Hnot & Hname).
    exists ((n, c') :: before), name, after. simpl. repeat split.
    + now rewrite Hd.
    + intros [H'|H']; [|contradiction].
      apply str_eqb_neq in E. contradiction.
    + assumption.
Qed.

Lemma dict_get_in (d : list (pystr * pystr)) (k v default : pystr) :
  NoDup (keys d) -> In (k, v) d -> dict_get d k default = v.
Proof.
  induction d as [|[k' v'] d IH]; simpl; intros Hnd Hin; [contradiction|].
  inversion Hnd as [|? ? Hnotin Hnd']; subst.
  destruct Hin as [Heq|Hin].
  - injection Heq as -> ->. now rewrite str_eqb_refl.
  - destruct (str_eqb k' k) eqn:E.
    + apply str_eqb_eq in E. subst k'. exfalso. apply Hnotin.
      change k with (fst (k, v)). now apply in_map.
    + now apply IH.
Qed.

(** C5: for every name [n] of the registry, the sentinel included, looking
    up the code, then the name of that code, then the code again gives the
    code of [n]. *)
Theorem get_language_code_round_trip (n : pystr) :
  In n (keys LANGUAGES) ->
  get_language_code (get_language_name (get_language_code n))
  = get_language_code n.
Proof.
  assert (H : forallb
                (fun n => str_eqb
                   (get_language_code (get_language_name (get_language_code n)))
                   (get_language_code n))
                (keys LANGUAGES) = true) by (vm_compute; reflexivity).
  rewrite forallb_forall in H. intros Hin. apply str_eqb_eq. now apply H.
Qed.

Lemma get_language_code_round_trip_witness :
  In (py "Auto Detect") (keys LANGUAGES) /\
  get_language_code (get_language_name (get_language_code (py "Auto Detect")))
  = get_language_code (py "Auto Detect").
Proof.
  assert (H : In (py "Auto Detect") (keys LANGUAGES))
    by (vm_compute; left; reflexivity).
  split; [exact H | exact (get_language_code_round_trip _ H)].
Defined.

(** C6: both lookups are total functions.  A name that is no key of the
    registry (keys are compared exactly) has code ["en"], and a registry name
    has its own code; a code that no entry carries has name ["English"], and
    a code of the registry has the name of the first entry, in declaration
    order, that carries it. *)
Theorem lookups_fall_back :
  (forall name, ~ In name (keys LANGUAGES) -> get_language_code name = py "en")
  /\ (forall name code,
        In (name, code) LANGUAGES -> get_language_code name = code)
  /\ (forall code,
        ~ In code (values LANGUAGES) -> get_language_name code = py "English")
  /\ (forall code,
        In code (values LANGUAGES) ->
        exists before name after,
          LANGUAGES = before ++ (name, code) :: after /\
          ~ In code (values before) /\
          get_language_name code = name).
Proof.
  repeat split.
  - intros name H. now apply dict_get_not_in.
  - intros name code H. apply dict_get_in; [apply LANGUAGES_keys_NoDup | exact H].
  - intros code H. now apply first_name_not_in.
  - intros code H. now apply first_name_in.
Qed.

Lemma lookups_fall_back_witness :
  get_language_code (py "not a real language") = py "en"
  /\ get_language_code (py "spanish") = py "en"
  /\ get_language_code (py "Spanish") = py "es"
  /\ get_language_name (py "zz") = py "English"
  /\ (exists before name after,
        LANGUAGES = before ++ (name, py "es") :: after /\
        ~ In (py "es") (values before) /\
        get_language_name (py "es") = name).
Proof.
  destruct lookups_fall_back as (Hmiss & Hhit & Hnocode & Hcode).
  refine (conj _ (conj _ (conj _ (conj _ _)))).
  - apply Hmiss, existsb_str_eqb_false. vm_compute. reflexivity.
  - apply Hmiss, existsb_str_eqb_false. vm_compute. reflexivity.
  - apply Hhit. vm_compute. do 2 right. left. reflexivity.
  - apply Hnocode, existsb_str_eqb_false. vm_compute. reflexivity.
  - assert (Hin : In (py "es") (values LANGUAGES))
      by (vm_compute; do 2 right; left; reflexivity).
    exact (Hcode _ Hin).
Defined.

(** ** Sorting *)

Lemma str_ltb_asym (a b : pystr) : str_ltb a b = true -> str_ltb b a = false.
Proof.
  revert b; induction a as [|x a IH]; intros [|y b]; simpl; try congruence.
  intros H. apply orb_true_iff in H as [H|H].
  - apply N.ltb_lt in H.
    destruct (N.ltb_spec y x); [lia|].
    destruct (N.eqb_spec y x); [lia|]. reflexivity.
  - apply andb_true_iff in H as [Hxy Hab]. apply N.eqb_eq in Hxy. subst y.
    rewrite N.ltb_irrefl, N.eqb_refl. simpl. now apply IH.
Qed.

Lemma str_le_trans (a b c : pystr) : str_le a b -> str_le b c -> str_le a c.
Proof.
  unfold str_le. revert b c; induction a as [|x a IH]; intros [|y b] [|z c];
    simpl; try congruence.
  intros Hba Hcb.
  apply orb_false_iff in Hba as [Hyx Hba], Hcb as [Hzy Hcb].
  apply N.ltb_ge in Hyx, Hzy.
  apply orb_false_iff. split.
  - apply N.ltb_ge. lia.
  - destruct (N.eqb_spec z x) as [->|]; [|reflexivity]. simpl.
    assert (y = x) by lia. subst y.
    rewrite N.eqb_refl in Hba, Hcb. simpl in Hba, Hcb.
    now apply (IH b c).
Qed.

Lemma insert_sorted_perm (x : pystr) (l : list pystr) :
  Permutation (insert_sorted x l) (x :: l).
Proof.
  induction l as [|y l IH]; simpl; [reflexivity|].
  destruct (str_ltb x y); [reflexivity|].
  rewrite IH. apply perm_swap.
Qed.

Lemma sorted_perm (l : list pystr) : Permutation (sorted l) l.
Proof.
  induction l as [|x l IH]; simpl; [reflexivity|].
  rewrite insert_sorted_perm. now constructor.
Qed.

Lemma insert_sorted_Sorted (x : pystr) (l : list pystr) :
  Sorted str_le l -> Sorted str_le (insert_sorted x l).
Proof.
  induction l as [|y l IH]; simpl; intros Hs.
  - repeat constructor.
  - destruct (str_ltb x y) eqn:E.
    + constructor; [assumption|]. constructor. now apply str_ltb_asym.
    + apply Sorted_inv in Hs as [Hs Hhd]. constructor; [now apply IH|].
      destruct l as [|z l]; simpl.
      * constructor. exact E.
      * destruct (str_ltb x z); constructor;
          [exact E | now apply HdRel_inv in Hhd].
Qed.

Lemma sorted_Sorted (l : list pystr) : StronglySorted str_le (sorted l).
Proof.
  apply Sorted_StronglySorted.
  - intros a b c. apply str_le_trans.
  - induction l as [|x l IH]; simpl; [constructor|].
    now apply insert_sorted_Sorted.
Qed.

(** C7: the sorted listing holds exactly the registry names, in ascending
    order, ["Auto Detect"] among them; the source listing is that listing;
    the target listing holds every registry name but ["Auto Detect"]. *)
Theorem language_listings :
  StronglySorted str_le get_language_names
  /\ Permutation get_language_names (keys LANGUAGES)
  /\ In (py "Auto Detect") get_language_names
  /\ In (py "Auto Detect") source_lang_values
  /\ ~ In (py "Auto Detect") target_lang_values
  /\ (forall n, In n target_lang_values <->
                In n (keys LANGUAGES) /\ n <> py "Auto Detect").
Proof.
  assert (Hperm : Permutation get_language_names (keys LANGUAGES))
    by apply sorted_perm.
  assert (Hauto : In (py "Auto Detect") get_language_names).
  { apply (Permutation_in _ (Permutation_sym Hperm)).
    vm_compute. left. reflexivity. }
  refine (conj _ (conj Hperm (conj Hauto (conj Hauto (conj _ _))))).
  - apply sorted_Sorted.
  - unfold target_lang_values. intros H. apply filter_In in H as [_ H].
    now rewrite str_eqb_refl in H.
  - intros n. unfold target_lang_values. rewrite filter_In, negb_true_iff.
    rewrite str_eqb_neq. split; intros [H1 H2]; split; try assumption.
    + now apply (Permutation_in _ Hperm).
    + now apply (Permutation_in _ (Permutation_sym Hperm)).
Qed.

Lemma language_listings_witness :
  In (py "Spanish") target_lang_values.
Proof.
  destruct language_listings as (_ & _ & _ & _ & _ & H).
  apply H. split.
  - vm_compute. do 2 right. left. reflexivity.
  - intros E. discriminate E.
Defined.

(** ** The translation service *)

Section TranslateText.

Variable lower : pystr -> pystr.

Lemma validation_guards (self : TranslationService) (txt : pystr) :
  passes_validation self txt ->
  negb (truthy txt) || negb (truthy (strip txt)) = false
  /\ (max_chars self <? len txt)%N = false.
Proof.
  intros [Hstrip Hlen]. split.
  - rewrite (strip_nonempty_truthy _ Hstrip), (truthy_true _ Hstrip).
    reflexivity.
  - now apply N.ltb_ge.
Qed.

Lemma same_language_guard (source_lang target_lang : pystr) :
  str_eqb source_lang target_lang && negb (str_eqb source_lang (py "auto"))
  = true
  <-> same_language source_lang target_lang.
Proof.
  unfold same_language.
  rewrite andb_true_iff, negb_true_iff, str_eqb_eq, str_eqb_neq. reflexivity.
Qed.

Lemma not_same_language_guard (source_lang target_lang : pystr) :
  ~ same_language source_lang target_lang ->
  str_eqb source_lang target_lang && negb (str_eqb source_lang (py "auto"))
  = false.
Proof.
  intros H. apply not_true_is_false. intros E. apply H.
  now apply same_language_guard.
Qed.

(** What [translate_text] does once the text is valid and the languages
    differ: one backend call, whose outcome decides. *)
Lemma translate_text_calls_backend (self : TranslationService)
    (txt source_lang target_lang : pystr) (log : list call) :
  passes_validation self txt ->
  ~ same_language source_lang target_lang ->
  translate_text lower self txt source_lang target_lang log
  = match translator self log (txt, source_lang, target_lang) with
    | Val (Some r) =>
        (Val (Some (text r), None), log ++ [(txt, source_lang, target_lang)])
    | Val None =>
        handle_exception lower
          {| exc_type := AttributeError;
             exc_str := py "'NoneType' object has no attribute 'text'" |}
          (log ++ [(txt, source_lang, target_lang)])
    | Exc e =>
        handle_exception lower e (log ++ [(txt, source_lang, target_lang)])
    end.
Proof.
  intros Hvalid Hdiff.
  destruct (validation_guards _ _ Hvalid) as [G1 G2].
  unfold translate_text, try_except. rewrite G1, G2.
  rewrite (not_same_language_guard _ _ Hdiff).
  unfold bind, translator_translate.
  destruct (translator self log (txt, source_lang, target_lang))
    as [[r|]|e]; reflexivity.
Qed.

Lemma kind_of_backend_error (detail : pystr) :
  kind_of_message (py "Translation service error: " ++ detail)
  = Some BackendError.
Proof. reflexivity. Qed.

Lemma kind_of_unknown_error (detail : pystr) :
  kind_of_message (py "Translation failed: " ++ detail) = Some UnknownError.
Proof. reflexivity. Qed.

(** The [except] clauses agree with the rule list on every instance of
    [Exception]. *)
Lemma handle_exception_classify (e : exn) (log : list call) :
  isinstance e Exception = true ->
  exists m,
    handle_exception lower e log = (Val (None, Some m), log)
    /\ kind_of_message m = Some (classify lower e)
    /\ (classify lower e = UnknownError ->
        m = py "Translation failed: " ++ exc_str e).
Proof.
  intros Hexc. unfold handle_exception, classify, classification_rules.
  cbn [find fst]. rewrite Hexc.
  destruct (isinstance e ConnectionError);
    [eexists; repeat split; discriminate|].
  destruct (isinstance e Timeout); [eexists; repeat split; discriminate|].
  destruct (isinstance e HTTPError).
  { eexists. split; [reflexivity|]. split; [|discriminate].
    apply kind_of_backend_error. }
  fold (mentions_rate_limit lower e) (mentions_forbidden lower e)
       (mentions_unavailable lower e).
  destruct (mentions_rate_limit lower e);
    [eexists; repeat split; discriminate|].
  destruct (mentions_forbidden lower e);
    [eexists; repeat split; discriminate|].
  destruct (mentions_unavailable lower e);
    [eexists; repeat split; discriminate|].
  eexists. split; [reflexivity|]. split; [|reflexivity].
  apply kind_of_unknown_error.
Qed.

(** An exception outside [Exception] passes through every clause. *)
Lemma handle_exception_reraises (e : exn) (log : list call) :
  isinstance e Exception = false ->
  handle_exception lower e log = (Exc e, log).
Proof.
  destruct e as [c s]. unfold handle_exception, isinstance. simpl.
  destruct c; simpl; intros H; try discriminate H; reflexivity.
Qed.

End TranslateText.

Lemma translate_text_invalid (lower : pystr -> pystr)
    (self : TranslationService) (txt source_lang target_lang : pystr)
    (log : list call) :
  ~ passes_validation self txt ->
  exists m,
    translate_text lower self txt source_lang target_lang log
    = (Val (None, Some m), log)
    /\ kind_of_message m = Some InvalidInput.
Proof.
  intros Hinvalid. unfold translate_text, try_except.
  destruct (negb (truthy txt) || negb (truthy (strip txt))) eqn:G1.
  - eexists. split; reflexivity.
  - destruct (N.ltb_spec (max_chars self) (len txt)) as [Hlong|Hshort].
    + eexists. split; reflexivity.
    + exfalso. apply Hinvalid. split; [|assumption].
      apply orb_false_iff in G1 as [_ G1]. apply negb_false_iff in G1.
      intros E. rewrite E in G1. discriminate G1.
Qed.

Lemma translate_text_same_language (lower : pystr -> pystr)
    (self : TranslationService) (txt source_lang target_lang : pystr)
    (log : list call) :
  passes_validation self txt ->
  same_language source_lang target_lang ->
  translate_text lower self txt source_lang target_lang log
  = (Val (Some txt, None), log).
Proof.
  intros Hvalid Hsame.
  destruct (validation_guards _ _ Hvalid) as [G1 G2].
  apply same_language_guard in Hsame.
  unfold translate_text, try_except. now rewrite G1, G2, Hsame.
Qed.

(** C1, as the code has it: an exception of the backend call that is an
    instance of [Exception] but of none of [ConnectionError], [Timeout] and
    [HTTPError], and whose lowered message contains ["429"] or
    ["too many requests"], is reported as [RateLimited]. *)
Theorem rate_limit_reported (lower : pystr -> pystr)
    (self : TranslationService) (txt source_lang target_lang : pystr)
    (log : list call) (e : exn) :
  backend_raises self txt source_lang target_lang log e ->
  isinstance e Exception = true ->
  isinstance e ConnectionError = false ->
  isinstance e Timeout = false ->
  isinstance e HTTPError = false ->
  mentions_rate_limit lower e = true ->
  let m := py "Rate limit exceeded: Please wait a moment and try again" in
  translate_text lower self txt source_lang target_lang log
  = (Val (None, Some m), log ++ [(txt, source_lang, target_lang)])
  /\ result_of (None, Some m) = Some (Failure RateLimited m).
Proof.
  intros (Hvalid & Hdiff & Hraise) Hexc Hconn Htime Hhttp Hrate m.
  split; [|reflexivity].
  rewrite (translate_text_calls_backend lower _ _ _ _ _ Hvalid Hdiff), Hraise.
  unfold handle_exception. rewrite Hconn, Htime, Hhttp, Hexc.
  unfold mentions_rate_limit in Hrate. now rewrite Hrate.
Qed.

Lemma hello_en_es_reaches_backend (tr : Translator) :
  passes_validation (init tr) (py "hello")
  /\ ~ same_language (py "en") (py "es").
Proof.
  split.
  - split; [vm_compute; discriminate | vm_compute; discriminate].
  - intros [E _]. discriminate E.
Qed.

Lemma rate_limit_reported_witness :
  let e := {| exc_type := OtherError;
              exc_str := py "HTTP Error 429: Too Many Requests" |} in
  let m := py "Rate limit exceeded: Please wait a moment and try again" in
  translate_text ascii_lower (init (backend_raising e))
    (py "hello") (py "en") (py "es") []
  = (Val (None, Some m), [(py "hello", py "en", py "es")])
  /\ result_of (None, Some m) = Some (Failure RateLimited m).
Proof.
  intros e m.
  apply (rate_limit_reported ascii_lower (init (backend_raising e))
           (py "hello") (py "en") (py "es") [] e).
  - destruct (hello_en_es_reaches_backend (backend_raising e)) as [Hv Hd].
    split; [exact Hv | split; [exact Hd | reflexivity]].
  - reflexivity.
  - reflexivity.
  - reflexivity.
  - reflexivity.
  - vm_compute. reflexivity.
Defined.

(** C1 as stated fails: an [HTTPError] whose message contains ["429"] is
    caught by the [HTTPError] clause and reported as a backend error. *)
Lemma rate_limited_whatever_class_fails :
  ~ rate_limited_whatever_class ascii_lower.
Proof.
  intros H.
  pose (e := {| exc_type := HTTPError;
                exc_str := py "429 Client Error: Too Many Requests for url" |}).
  destruct (hello_en_es_reaches_backend (backend_raising e)) as [Hv Hd].
  destruct (H (init (backend_raising e)) (py "hello") (py "en") (py "es") [] e)
    as (m & log' & Hrun & Hkind).
  - split; [exact Hv | split; [exact Hd | reflexivity]].
  - vm_compute. reflexivity.
  - vm_compute in Hrun. injection Hrun as Hm _. subst m.
    vm_compute in Hkind. discriminate Hkind.
Qed.

(** C2: when source and target are the same code, other than ["auto"], and
    the text is non-empty after trimming and at most 5000 characters long,
    the result is the original text and the log of backend calls is
    unchanged: the backend is not invoked. *)
Theorem same_language_short_circuit (lower : pystr -> pystr) (tr : Translator)
    (txt code : pystr) (log : list call) :
  strip txt <> [] ->
  (len txt <= 5000)%N ->
  code <> py "auto" ->
  translate_text lower (init tr) txt code code log = (Val (Some txt, None), log)
  /\ result_of (Some txt, None) = Some (Success txt).
Proof.
  intros Hstrip Hlen Hcode. split; [|reflexivity].
  apply translate_text_same_language; split; auto.
Qed.

Lemma same_language_short_circuit_witness :
  translate_text ascii_lower
    (init (backend_raising {| exc_type := OtherError; exc_str := py "called" |}))
    (py "hello") (py "en") (py "en") []
  = (Val (Some (py "hello"), None), [])
  /\ result_of (Some (py "hello"), None) = Some (Success (py "hello")).
Proof.
  apply same_language_short_circuit.
  - vm_compute. discriminate.
  - vm_compute. discriminate.
  - intros E. discriminate E.
Defined.

(** C3: a text that is empty after trimming, and a text longer than 5000
    characters, are rejected as [InvalidInput] for every source and target
    code, and the log of backend calls is unchanged. *)
Theorem invalid_input_rejected (lower : pystr -> pystr) (tr : Translator)
    (txt source_lang target_lang : pystr) (log : list call) :
  strip txt = [] \/ (5000 < len txt)%N ->
  exists m,
    translate_text lower (init tr) txt source_lang target_lang log
    = (Val (None, Some m), log)
    /\ result_of (None, Some m) = Some (Failure InvalidInput m)
    /\ (strip txt = [] -> m = py "Please enter text to translate")
    /\ (strip txt <> [] ->
        m = py "Text too long. Maximum 5000 characters allowed.").
Proof.
  intros H. unfold translate_text, try_except.
  destruct (strip txt) as [|c s] eqn:E.
  - rewrite orb_true_r. eexists. split; [reflexivity|].
    split; [reflexivity|]. split; [reflexivity | congruence].
  - destruct H as [H|H]; [discriminate H|].
    assert (Htxt : truthy txt = true)
      by (apply strip_nonempty_truthy; rewrite E; discriminate).
    rewrite Htxt. simpl negb. simpl orb.
    apply N.ltb_lt in H. change (max_chars (init tr)) with 5000%N. rewrite H.
    eexists. split; [reflexivity|].
    split; [reflexivity|]. split; [discriminate | reflexivity].
Qed.

Lemma invalid_input_rejected_witness :
  (exists m,
     translate_text ascii_lower (init (backend_returning (py "hola")))
       (py "  ") (py "auto") (py "es") []
     = (Val (None, Some m), [])
     /\ result_of (None, Some m) = Some (Failure InvalidInput m)
     /\ (strip (py "  ") = [] -> m = py "Please enter text to translate")
     /\ (strip (py "  ") <> [] ->
         m = py "Text too long. Maximum 5000 characters allowed."))
  /\ (exists m,
        translate_text ascii_lower (init (backend_returning (py "hola")))
          (repeat 97%N (N.to_nat 5001)) (py "auto") (py "es") []
        = (Val (None, Some m), [])
        /\ result_of (None, Some m) = Some (Failure InvalidInput m)
        /\ (strip (repeat 97%N (N.to_nat 5001)) = [] ->
            m = py "Please enter text to translate")
        /\ (strip (repeat 97%N (N.to_nat 5001)) <> [] ->
            m = py "Text too long. Maximum 5000 characters allowed.")).
Proof.
  split.
  - apply invalid_input_rejected. left. vm_compute. reflexivity.
  - apply invalid_input_rejected. right. vm_compute. reflexivity.
Defined.

(** C4, as the code has it: for every exception of the backend call that is
    an instance of [Exception], the clauses give the kind of the first rule
    of the ordered list that matches (an instance of the [requests] class
    [ConnectionError], of its class [Timeout], of its class [HTTPError],
    then the message substrings for rate limiting, access denial and
    unavailability), and [UnknownError] with the backend's message kept when
    no rule matches.  A connection or timeout error of any other class is
    matched by its message only. *)
Theorem exceptions_classified_in_order (lower : pystr -> pystr)
    (self : TranslationService) (txt source_lang target_lang : pystr)
    (log : list call) (e : exn) :
  backend_raises self txt source_lang target_lang log e ->
  isinstance e Exception = true ->
  exists m,
    translate_text lower self txt source_lang target_lang log
    = (Val (None, Some m), log ++ [(txt, source_lang, target_lang)])
    /\ kind_of_message m = Some (classify lower e)
    /\ (classify lower e = UnknownError ->
        m = py "Translation failed: " ++ exc_str e).
Proof.
  intros (Hvalid & Hdiff & Hraise) Hexc.
  rewrite (translate_text_calls_backend lower _ _ _ _ _ Hvalid Hdiff), Hraise.
  now apply handle_exception_classify.
Qed.

Lemma exceptions_classified_in_order_witness :
  let e := {| exc_type := OtherError;
              exc_str := py "403 Forbidden (was 429), Service Unavailable" |} in
  classify ascii_lower e = RateLimited
  /\ exists m,
       translate_text ascii_lower (init (backend_raising e))
         (py "hello") (py "en") (py "es") []
       = (Val (None, Some m), [] ++ [(py "hello", py "en", py "es")])
       /\ kind_of_message m = Some (classify ascii_lower e)
       /\ (classify ascii_lower e = UnknownError ->
           m = py "Translation failed: " ++ exc_str e).
Proof.
  intros e. split; [vm_compute; reflexivity|].
  apply exceptions_classified_in_order.
  - destruct (hello_en_es_reaches_backend (backend_raising e)) as [Hv Hd].
    split; [exact Hv | split; [exact Hd | reflexivity]].
  - reflexivity.
Defined.

(** C4 as stated fails: a [KeyboardInterrupt] raised during the backend call
    is caught by no clause and leaves [translate_text] as an exception. *)
Lemma every_exception_classified_fails :
  ~ every_exception_classified ascii_lower.
Proof.
  intros H.
  pose (e := {| exc_type := KeyboardInterrupt; exc_str := [] |}).
  destruct (hello_en_es_reaches_backend (backend_raising e)) as [Hv Hd].
  destruct (H (init (backend_raising e)) (py "hello") (py "en") (py "es") [] e)
    as (m & Hrun & _).
  - split; [exact Hv | split; [exact Hd | reflexivity]].
  - vm_compute in Hrun. discriminate Hrun.
Qed.

(** C8: [is_service_available] returns a boolean after its one canary call,
    whatever the backend does; the boolean is [false] whenever the call
    raises, whatever the class of the exception, and [true] exactly when the
    call returns an object. *)
Theorem is_service_available_never_raises (self : TranslationService)
    (log : list call) :
  exists b,
    is_service_available self log = (Val b, log ++ [canary])
    /\ (forall e, translator self log canary = Exc e -> b = false)
    /\ (b = true <-> exists r, translator self log canary = Val (Some r)).
Proof.
  unfold is_service_available, try_except, bind, translator_translate.
  fold canary.
  destruct (translator self log canary) as [[r|]|e].
  - exists true. split; [reflexivity|]. split; [discriminate|].
    split; [intros _; now exists r | reflexivity].
  - exists false. split; [reflexivity|]. split; [reflexivity|].
    split; [discriminate | intros [r H]; discriminate H].
  - exists false. split; [reflexivity|]. split; [reflexivity|].
    split; [discriminate | intros [r H]; discriminate H].
Qed.

Lemma is_service_available_never_raises_witness :
  is_service_available
    (init (backend_raising {| exc_type := KeyboardInterrupt; exc_str := [] |}))
    []
  = (Val false, [canary]).
Proof.
  destruct (is_service_available_never_raises
              (init (backend_raising
                       {| exc_type := KeyboardInterrupt; exc_str := [] |}))
              [])
    as (b & Hrun & Hraise & _).
  rewrite Hrun. rewrite (Hraise _ eq_refl). reflexivity.
Defined.

(** C10, as the code has it: when the backend call returns, or raises an
    instance of [Exception], [translate_text] returns a pair with exactly
    one component set: [(None, message)] for a text that fails validation,
    [(text, None)] without a backend call for equal languages,
    [(translation, None)] when the backend returns a translation, and
    [(None, message)] when the backend call fails. *)
Theorem translate_text_returns_pair (lower : pystr -> pystr)
    (self : TranslationService) (txt source_lang target_lang : pystr)
    (log : list call) :
  (forall e,
     translator self log (txt, source_lang, target_lang) = Exc e ->
     isinstance e Exception = true) ->
  exists p log',
    translate_text lower self txt source_lang target_lang log = (Val p, log')
    /\ one_component p
    /\ ((~ passes_validation self txt
         /\ (exists m, p = (None, Some m)) /\ log' = log)
        \/ (passes_validation self txt
            /\ same_language source_lang target_lang
            /\ p = (Some txt, None) /\ log' = log)
        \/ (passes_validation self txt
            /\ ~ same_language source_lang target_lang
            /\ log' = log ++ [(txt, source_lang, target_lang)]
            /\ match translator self log (txt, source_lang, target_lang) with
               | Val (Some r) => p = (Some (text r), None)
               | _ => exists m, p = (None, Some m)
               end)).
Proof.
  intros Hexc.
  assert (Hvalid : passes_validation self txt \/ ~ passes_validation self txt).
  { unfold passes_validation.
    destruct (strip txt) as [|c s]; [right; intros [H _]; congruence|].
    destruct (N.le_gt_cases (len txt) (max_chars self)) as [H|H].
    - left. split; [discriminate | assumption].
    - right. intros [_ H']. lia. }
  assert (Hsame : same_language source_lang target_lang
                  \/ ~ same_language source_lang target_lang).
  { destruct (str_eqb source_lang target_lang
              && negb (str_eqb source_lang (py "auto"))) eqn:G.
    - left. now apply same_language_guard.
    - right. intros H. apply same_language_guard in H. congruence. }
  destruct Hvalid as [Hvalid|Hinvalid].
  - destruct Hsame as [Hsame|Hdiff].
    + exists (Some txt, None), log.
      split; [now apply translate_text_same_language|].
      split; [left; now exists txt|]. right. left. auto.
    + rewrite (translate_text_calls_backend lower _ _ _ _ _ Hvalid Hdiff).
      destruct (translator self log (txt, source_lang, target_lang))
        as [[r|]|e] eqn:Hcall.
      * exists (Some (text r), None), (log ++ [(txt, source_lang, target_lang)]).
        split; [reflexivity|]. split; [left; now eexists|].
        right. right. exact (conj Hvalid (conj Hdiff (conj eq_refl eq_refl))).
      * destruct (handle_exception_classify lower
                    {| exc_type := AttributeError;
                       exc_str := py "'NoneType' object has no attribute 'text'" |}
                    (log ++ [(txt, source_lang, target_lang)]) eq_refl)
          as (m & Hm & _).
        exists (None, Some m), (log ++ [(txt, source_lang, target_lang)]).
        split; [exact Hm|]. split; [right; now exists m|].
        right. right. refine (conj Hvalid (conj Hdiff (conj eq_refl _))).
        now exists m.
      * destruct (handle_exception_classify lower e
                    (log ++ [(txt, source_lang, target_lang)])
                    (Hexc e eq_refl))
          as (m & Hm & _).
        exists (None, Some m), (log ++ [(txt, source_lang, target_lang)]).
        split; [exact Hm|]. split; [right; now exists m|].
        right. right. refine (conj Hvalid (conj Hdiff (conj eq_refl _))).
        now exists m.
  - destruct (translate_text_invalid lower self txt source_lang target_lang
                log Hinvalid) as (m & Hm & _).
    exists (None, Some m), log.
    split; [exact Hm|]. split; [right; now exists m|].
    left. refine (conj Hinvalid (conj _ eq_refl)). now exists m.
Qed.

Lemma translate_text_returns_pair_witness :
  exists p log',
    translate_text ascii_lower (init (backend_returning (py "hola")))
      (py "hello") (py "en") (py "es") []
    = (Val p, log')
    /\ one_component p.
Proof.
  destruct (translate_text_returns_pair ascii_lower
              (init (backend_returning (py "hola")))
              (py "hello") (py "en") (py "es") [])
    as (p & log' & Hrun & Hone & _).
  - intros e H. discriminate H.
  - exists p, log'. split; assumption.
Defined.

(** C10 as stated fails: a [KeyboardInterrupt] raised during the backend
    call is not an instance of [Exception]; [translate_text] raises it. *)
Lemma always_returns_pair_fails : ~ always_returns_pair ascii_lower.
Proof.
  intros H.
  destruct (H (init (backend_raising
                       {| exc_type := KeyboardInterrupt; exc_str := [] |}))
              (py "hello") (py "en") (py "es") [])
    as (p & log' & Hrun & _).
  vm_compute in Hrun. discriminate Hrun.
Qed.

(** ** The saved record *)

Lemma split_lines_aux_app (cur a b : pystr) :
  split_lines_aux cur (a ++ nl ++ b) = split_lines_aux cur a ++ split_lines b.
Proof.
  revert cur; induction a as [|c a IH]; intros cur; simpl.
  - reflexivity.
  - destruct (c =? 10)%N; [|apply IH].
    simpl. f_equal. apply IH.
Qed.

Lemma split_lines_app (a b : pystr) :
  split_lines (a ++ nl ++ b) = split_lines a ++ split_lines b.
Proof. apply split_lines_aux_app. Qed.

Lemma split_lines_blank (b : pystr) :
  split_lines (nl ++ b) = [] :: split_lines b.
Proof. exact (split_lines_app [] b). Qed.

Lemma split_lines_aux_one_line (cur s : pystr) :
  ~ In 10%N s -> split_lines_aux cur s = [rev cur ++ s].
Proof.
  revert cur; induction s as [|c s IH]; intros cur H; simpl.
  - now rewrite app_nil_r.
  - destruct (N.eqb_spec c 10) as [->|_].
    + exfalso. apply H. now left.
    + rewrite IH by (intros Hin; apply H; now right).
      simpl. now rewrite <- app_assoc.
Qed.

Lemma split_lines_one_line (s : pystr) : ~ In 10%N s -> split_lines s = [s].
Proof. intros H. now apply (split_lines_aux_one_line []). Qed.

(** C9, as the code has it: the written file is the title line, the
    separator line of 31 [=], a blank line, [Source Language: <name>],
    [Target Language: <name>], a blank line, [Original Text:] and the
    original text on the lines after it, a blank line, [Translation:] and
    the translated text on the lines after it. *)
Theorem saved_record_layout (self : TranslationApp) (file_path : pystr) :
  strip (text_get (output_text self)) <> [] ->
  file_path <> [] ->
  let source_text := strip (text_get (input_text self)) in
  let translation := strip (text_get (output_text self)) in
  exists content,
    save_translation self file_path = FileWritten file_path content
    /\ content
       = py "Phrase Bridge Translation" ++ nl
         ++ str_mul (py "=") 31 ++ nl
         ++ nl
         ++ py "Source Language: " ++ source_lang_var self ++ nl
         ++ py "Target Language: " ++ target_lang_var self ++ nl
         ++ nl
         ++ py "Original Text:" ++ nl
         ++ source_text ++ nl
         ++ nl
         ++ py "Translation:" ++ nl
         ++ translation ++ nl
    /\ (~ In 10%N (source_lang_var self) ->
        ~ In 10%N (target_lang_var self) ->
        split_lines content
        = [ py "Phrase Bridge Translation";
            str_mul (py "=") 31;
            [];
            py "Source Language: " ++ source_lang_var self;
            py "Target Language: " ++ target_lang_var self;
            [];
            py "Original Text:" ]
          ++ split_lines source_text
          ++ [ []; py "Translation:" ]
          ++ split_lines translation
          ++ [ [] ]).
Proof.
  intros Hout Hpath source_text translation.
  eexists. split; [|split].
  - unfold save_translation.
    rewrite (truthy_true _ Hout), (truthy_true _ Hpath). simpl negb. cbv iota.
    reflexivity.
  - fold source_text translation. unfold record_writes.
    cbn [List.concat]. rewrite app_nil_r.
    repeat rewrite <- app_assoc. reflexivity.
  - intros Hsrc Htgt. fold source_text translation. unfold record_writes.
    cbn [List.concat]. rewrite app_nil_r.
    assert (Hlang : forall label name : pystr,
               ~ In 10%N label -> ~ In 10%N name ->
               split_lines (label ++ name) = [label ++ name]).
    { intros label name Hl Hn. apply split_lines_one_line.
      intros Hin. apply in_app_or in Hin. tauto. }
    assert (Hlabel : forall s : pystr,
               forallb (fun c => negb (c =? 10)%N) s = true -> ~ In 10%N s).
    { intros s Hs Hin. rewrite forallb_forall in Hs.
      apply Hs in Hin. discriminate Hin. }
    repeat rewrite <- app_assoc.
    rewrite (app_assoc (py "=") (str_mul (py "=") 30)).
    change (py "=" ++ str_mul (py "=") 30) with (str_mul (py "=") 31).
    rewrite (split_lines_app (py "Phrase Bridge Translation")).
    rewrite (split_lines_app (str_mul (py "=") 31)).
    rewrite split_lines_blank.
    rewrite (app_assoc (py "Source Language: ")), split_lines_app.
    rewrite (app_assoc (py "Target Language: ")), split_lines_app.
    rewrite split_lines_blank.
    rewrite (split_lines_app (py "Original Text:")).
    rewrite (split_lines_app source_text).
    rewrite split_lines_blank.
    rewrite (split_lines_app (py "Translation:")).
    change (translation ++ nl) with (translation ++ nl ++ []).
    rewrite (split_lines_app translation).
    rewrite (Hlang _ _ (Hlabel (py "Source Language: ") eq_refl) Hsrc).
    rewrite (Hlang _ _ (Hlabel (py "Target Language: ") eq_refl) Htgt).
    reflexivity.
Qed.

Lemma saved_record_layout_witness :
  exists content,
    save_translation hello_hola (py "out.txt")
    = FileWritten (py "out.txt") content
    /\ split_lines content
       = [ py "Phrase Bridge Translation";
           py "===============================";
           [];
           py "Source Language: English";
           py "Target Language: Spanish";
           [];
           py "Original Text:";
           py "hello";
           [];
           py "Translation:";
           py "hola";
           [] ].
Proof.
  destruct (saved_record_layout hello_hola (py "out.txt"))
    as (content & Hsave & _ & Hlines).
  - vm_compute. discriminate.
  - vm_compute. discriminate.
  - exists content. split; [exact Hsave|].
    rewrite Hlines.
    + vm_compute. reflexivity.
    + vm_compute. intros H. repeat (destruct H as [H|H]; [discriminate H|]).
      exact H.
    + vm_compute. intros H. repeat (destruct H as [H|H]; [discriminate H|]).
      exact H.
Defined.

(** C9 as stated fails: the code writes a blank line after the separator,
    so the third line of the file is empty and [Source Language:] comes
    fourth. *)
Lemma every_record_as_listed_fails : ~ every_record_as_listed.
Proof.
  intros H.
  destruct (H hello_hola (py "out.txt") _ eq_refl)
    as (title & separator & rest & Hlines).
  vm_compute in Hlines. discriminate Hlines.
Qed.

(** * Further properties of the code *)

(** ** The registry: round trips and the sentinel *)

Lemma dict_get_cases (d : list (pystr * pystr)) (k default : pystr) :
  dict_get d k default = default \/ In (k, dict_get d k default) d.
Proof.
  induction d as [|[k' v] d IH]; simpl; [now left|].
  destruct (str_eqb k' k) eqn:E.
  - apply str_eqb_eq in E. subst k'. right. now left.
  - destruct IH as [IH|IH]; [now left | right; now right].
Qed.

(** Name to code to name: every registry name is recovered from its code,
    so no two registry names share a code. *)
Theorem name_code_name_round_trip (n : pystr) :
  In n (keys LANGUAGES) ->
  get_language_name (get_language_code n) = n.
Proof.
  assert (H : forallb
                (fun n => str_eqb (get_language_name (get_language_code n)) n)
                (keys LANGUAGES) = true) by (vm_compute; reflexivity).
  rewrite forallb_forall in H. intros Hin. apply str_eqb_eq. now apply H.
Qed.

Lemma name_code_name_round_trip_witness :
  In (py "Chinese (Traditional)") (keys LANGUAGES)
  /\ get_language_name (get_language_code (py "Chinese (Traditional)"))
     = py "Chinese (Traditional)".
Proof.
  assert (H : In (py "Chinese (Traditional)") (keys LANGUAGES))
    by (vm_compute; do 9 right; left; reflexivity).
  split; [exact H | exact (name_code_name_round_trip _ H)].
Defined.

(** Code to name to code: every registry code is recovered from its name. *)
Theorem code_name_code_round_trip (c : pystr) :
  In c (values LANGUAGES) ->
  get_language_code (get_language_name c) = c.
Proof.
  assert (H : forallb
                (fun c => str_eqb (get_language_code (get_language_name c)) c)
                (values LANGUAGES) = true) by (vm_compute; reflexivity).
  rewrite forallb_forall in H. intros Hin. apply str_eqb_eq. now apply H.
Qed.

Lemma code_name_code_round_trip_witness :
  In (py "zh-tw") (values LANGUAGES)
  /\ get_language_code (get_language_name (py "zh-tw")) = py "zh-tw".
Proof.
  assert (H : In (py "zh-tw") (values LANGUAGES))
    by (vm_compute; do 9 right; left; reflexivity).
  split; [exact H | exact (code_name_code_round_trip _ H)].
Defined.

(** For every string, registry name or not, the code is ["auto"] exactly
    when the string is ["Auto Detect"]: the fallback never yields the
    sentinel and no other name carries it. *)
Theorem auto_code_only_for_sentinel (n : pystr) :
  get_language_code n = py "auto" <-> n = py "Auto Detect".
Proof.
  split; [|intros ->; reflexivity].
  intros H. unfold get_language_code in H.
  destruct (dict_get_cases LANGUAGES n (py "en")) as [Hd|Hin].
  - rewrite Hd in H. discriminate H.
  - rewrite H in Hin.
    assert (Hall : forallb
                     (fun p => negb (str_eqb (snd p) (py "auto"))
                               || str_eqb (fst p) (py "Auto Detect"))
                     LANGUAGES = true) by (vm_compute; reflexivity).
    rewrite forallb_forall in Hall. specialize (Hall _ Hin). cbn [fst snd] in Hall.
    rewrite str_eqb_refl in Hall. now apply str_eqb_eq.
Qed.

Lemma auto_code_only_for_sentinel_witness :
  get_language_code (py "Auto Detect") = py "auto"
  /\ get_language_code (py "auto detect") <> py "auto".
Proof.
  split.
  - now apply auto_code_only_for_sentinel.
  - intros H. apply auto_code_only_for_sentinel in H. discriminate H.
Defined.

(** Whatever the string, the code returned is a code of the registry. *)
Theorem get_language_code_in_registry (n : pystr) :
  In (get_language_code n) (values LANGUAGES).
Proof.
  unfold get_language_code.
  destruct (dict_get_cases LANGUAGES n (py "en")) as [Hd|Hin].
  - rewrite Hd. vm_compute. right. left. reflexivity.
  - change (dict_get LANGUAGES n (py "en"))
      with (snd (n, dict_get LANGUAGES n (py "en"))).
    now apply in_map.
Qed.

(** ** The translation service: what escapes and what is logged *)

Lemma passes_validation_dec (self : TranslationService) (txt : pystr) :
  passes_validation self txt \/ ~ passes_validation self txt.
Proof.
  unfold passes_validation.
  destruct (strip txt) as [|c s]; [right; intros [H _]; congruence|].
  destruct (N.le_gt_cases (len txt) (max_chars self)) as [H|H].
  - left. split; [discriminate | assumption].
  - right. intros [_ H']. lia.
Qed.

Lemma same_language_dec (source_lang target_lang : pystr) :
  same_language source_lang target_lang
  \/ ~ same_language source_lang target_lang.
Proof.
  destruct (str_eqb source_lang target_lang
            && negb (str_eqb source_lang (py "auto"))) eqn:G.
  - left. now apply same_language_guard.
  - right. intros H. apply same_language_guard in H. congruence.
Qed.

Lemma kind_of_message_nonempty (m : pystr) (k : ErrorKind) :
  kind_of_message m = Some k -> m <> [].
Proof. intros H E. subst m. discriminate H. Qed.

(** The handler leaves the log as it is, whatever the exception. *)
Lemma handle_exception_log (lower : pystr -> pystr) (e : exn)
    (log : list call) :
  snd (handle_exception lower e log) = log.
Proof.
  destruct (isinstance e Exception) eqn:E.
  - destruct (handle_exception_classify lower e log E) as (m & H & _).
    now rewrite H.
  - now rewrite handle_exception_reraises.
Qed.

(** An exception of the backend call that is not an instance of
    [Exception] leaves [translate_text] unchanged, after the one call. *)
Theorem translate_text_reraises (lower : pystr -> pystr)
    (self : TranslationService) (txt source_lang target_lang : pystr)
    (log : list call) (e : exn) :
  backend_raises self txt source_lang target_lang log e ->
  isinstance e Exception = false ->
  translate_text lower self txt source_lang target_lang log
  = (Exc e, log ++ [(txt, source_lang, target_lang)]).
Proof.
  intros (Hvalid & Hdiff & Hraise) Hexc.
  rewrite (translate_text_calls_backend lower _ _ _ _ _ Hvalid Hdiff), Hraise.
  now apply handle_exception_reraises.
Qed.

Lemma translate_text_reraises_witness :
  let e := {| exc_type := SystemExit; exc_str := py "1" |} in
  translate_text ascii_lower (init (backend_raising e))
    (py "hello") (py "auto") (py "es") []
  = (Exc e, [] ++ [(py "hello", py "auto", py "es")]).
Proof.
  intros e. apply translate_text_reraises; [|reflexivity].
  split; [|split; [|reflexivity]].
  - split; vm_compute; discriminate.
  - intros [E _]. discriminate E.
Defined.

(** The backend is called once, with the arguments as given, exactly when
    the text is valid and the languages are not the same code; otherwise it
    is not called.  This holds whatever the backend does: there is no
    retry. *)
Theorem translate_text_backend_calls (lower : pystr -> pystr)
    (self : TranslationService) (txt source_lang target_lang : pystr)
    (log : list call) :
  (passes_validation self txt /\ ~ same_language source_lang target_lang ->
   snd (translate_text lower self txt source_lang target_lang log)
   = log ++ [(txt, source_lang, target_lang)])
  /\ (~ passes_validation self txt \/ same_language source_lang target_lang ->
      snd (translate_text lower self txt source_lang target_lang log) = log).
Proof.
  split.
  - intros [Hvalid Hdiff].
    rewrite (translate_text_calls_backend lower _ _ _ _ _ Hvalid Hdiff).
    destruct (translator self log (txt, source_lang, target_lang))
      as [[r|]|e]; [reflexivity | apply handle_exception_log ..].
  - intros H.
    destruct (passes_validation_dec self txt) as [Hvalid|Hinvalid].
    + destruct H as [H|Hsame]; [contradiction|].
      now rewrite translate_text_same_language.
    + destruct (translate_text_invalid lower self txt source_lang target_lang
                  log Hinvalid) as (m & Hm & _).
      now rewrite Hm.
Qed.

Lemma translate_text_backend_calls_witness :
  snd (translate_text ascii_lower
         (init (backend_raising {| exc_type := Timeout; exc_str := [] |}))
         (py "hello") (py "auto") (py "auto") [])
  = [] ++ [(py "hello", py "auto", py "auto")]
  /\ snd (translate_text ascii_lower
            (init (backend_raising {| exc_type := Timeout; exc_str := [] |}))
            (py "hello") (py "fr") (py "fr") [])
     = [].
Proof.
  split.
  - apply translate_text_backend_calls. split.
    + split; vm_compute; discriminate.
    + intros [_ E]. now apply E.
  - apply translate_text_backend_calls. right. split.
    + reflexivity.
    + intros E. discriminate E.
Defined.

(** Every run of [translate_text] ends in one of three ways: a translation
    alone, an error message alone that is non-empty and belongs to a kind,
    or an exception, which is then the one the backend call raised and is
    not an instance of [Exception]. *)
Theorem translate_text_outcomes (lower : pystr -> pystr)
    (self : TranslationService) (txt source_lang target_lang : pystr)
    (log : list call) :
  match fst (translate_text lower self txt source_lang target_lang log) with
  | Val (Some _, None) => True
  | Val (None, Some m) => m <> [] /\ kind_of_message m <> None
  | Val _ => False
  | Exc e =>
      isinstance e Exception = false
      /\ translator self log (txt, source_lang, target_lang) = Exc e
  end.
Proof.
  assert (Hhandled : forall e log',
             isinstance e Exception = true ->
             match fst (handle_exception lower e log') with
             | Val (Some _, None) => True
             | Val (None, Some m) => m <> [] /\ kind_of_message m <> None
             | Val _ => False
             | Exc e' =>
                 isinstance e' Exception = false
                 /\ translator self log (txt, source_lang, target_lang)
                    = Exc e'
             end).
  { intros e log' He.
    destruct (handle_exception_classify lower e log' He) as (m & Hm & Hk & _).
    rewrite Hm. simpl. split.
    - now apply (kind_of_message_nonempty _ _ Hk).
    - rewrite Hk. discriminate. }
  destruct (passes_validation_dec self txt) as [Hvalid|Hinvalid].
  - destruct (same_language_dec source_lang target_lang) as [Hsame|Hdiff].
    + now rewrite translate_text_same_language.
    + rewrite (translate_text_calls_backend lower _ _ _ _ _ Hvalid Hdiff).
      destruct (translator self log (txt, source_lang, target_lang))
        as [[r|]|e] eqn:Hcall.
      * exact I.
      * now apply Hhandled.
      * destruct (isinstance e Exception) eqn:He; [now apply Hhandled|].
        rewrite handle_exception_reraises by assumption. simpl. now split.
  - destruct (translate_text_invalid lower self txt source_lang target_lang
                log Hinvalid) as (m & Hm & Hk).
    rewrite Hm. simpl. split.
    + now apply (kind_of_message_nonempty _ _ Hk).
    + rewrite Hk. discriminate.
Qed.

(** ** Language detection *)

(** A text that is empty after trimming is refused without a backend
    call. *)
Theorem detect_language_blank (detect : detection.Detector) (txt : pystr)
    (log : list pystr) :
  strip txt = [] ->
  detection.detect_language detect txt log
  = (Val (None, Some (py "No text provided for language detection")), log).
Proof.
  intros H. unfold detection.detect_language, detection.etry.
  rewrite H. simpl truthy. rewrite orb_true_r. reflexivity.
Qed.

Lemma detect_language_blank_witness :
  detection.detect_language
    (fun _ _ => Val (Some {| detection.lang := py "en" |}))
    [9%N; 32%N; 10%N] []
  = (Val (None, Some (py "No text provided for language detection")), []).
Proof. apply detect_language_blank. reflexivity. Defined.

(** For a text that is not blank the backend is called once with the text
    as given, whatever its length, and the outcome decides: the detected
    code alone, or for every instance of [Exception], whatever its class
    and message, the failure message that ends with the exception's own;
    any other exception is raised again. *)
Theorem detect_language_outcome (detect : detection.Detector) (txt : pystr)
    (log : list pystr) :
  strip txt <> [] ->
  detection.detect_language detect txt log
  = (match detect log txt with
     | Val (Some d) => Val (Some (detection.lang d), None)
     | Val None =>
         Val (None,
              Some (py "Language detection failed: "
                    ++ py "'NoneType' object has no attribute 'lang'"))
     | Exc e =>
         if isinstance e Exception then
           Val (None, Some (py "Language detection failed: " ++ exc_str e))
         else Exc e
     end,
     log ++ [txt]).
Proof.
  intros H. unfold detection.detect_language, detection.etry, detection.ebind,
    detection.translator_detect.
  rewrite (strip_nonempty_truthy _ H), (truthy_true _ H).
  cbn [negb orb]. cbv beta.
  destruct (detect log txt) as [[d|]|e].
  - reflexivity.
  - reflexivity.
  - simpl. destruct (isinstance e Exception); reflexivity.
Qed.

Lemma detect_language_outcome_witness :
  let e := {| exc_type := ConnectionError;
              exc_str := py "429 too many requests" |} in
  detection.detect_language (fun _ _ => Exc e)
    (repeat 97%N (N.to_nat 6000)) []
  = (Val (None,
          Some (py "Language detection failed: 429 too many requests")),
     [repeat 97%N (N.to_nat 6000)]).
Proof.
  intros e.
  rewrite (detect_language_outcome (fun _ _ => Exc e)
             (repeat 97%N (N.to_nat 6000)) []).
  - reflexivity.
  - vm_compute. discriminate.
Defined.

(** ** Trimming and substring search *)

Lemma lstrip_not_space (c : N) (s : pystr) :
  is_space c = false -> lstrip (c :: s) = c :: s.
Proof. intros H. simpl. now rewrite H. Qed.

Lemma lstrip_head (s : pystr) :
  match lstrip s with
  | [] => True
  | c :: _ => is_space c = false
  end.
Proof.
  induction s as [|c s IH]; simpl; [exact I|].
  destruct (is_space c) eqn:E; [exact IH | exact E].
Qed.

Lemma lstrip_idempotent (s : pystr) : lstrip (lstrip s) = lstrip s.
Proof.
  pose proof (lstrip_head s) as H.
  destruct (lstrip s) as [|c t]; [reflexivity | now apply lstrip_not_space].
Qed.

Lemma lstrip_snoc_not_space (s : pystr) (c : N) :
  is_space c = false -> lstrip (s ++ [c]) = lstrip s ++ [c].
Proof.
  intros H. induction s as [|d s IH]; simpl.
  - now rewrite H.
  - destruct (is_space d); [exact IH | reflexivity].
Qed.

Lemma lstrip_snoc_space (s : pystr) (c : N) :
  is_space c = true ->
  lstrip (s ++ [c]) = match lstrip s with [] => [] | _ :: _ => lstrip s ++ [c] end.
Proof.
  intros H. induction s as [|d s IH]; simpl.
  - now rewrite H.
  - destruct (is_space d); [exact IH | reflexivity].
Qed.

Lemma rstrip_cons_not_space (c : N) (s : pystr) :
  is_space c = false -> rstrip (c :: s) = c :: rstrip s.
Proof.
  intros H. unfold rstrip. simpl rev.
  rewrite (lstrip_snoc_not_space _ _ H), rev_app_distr. reflexivity.
Qed.

Lemma rstrip_idempotent (s : pystr) : rstrip (rstrip s) = rstrip s.
Proof. unfold rstrip. now rewrite rev_involutive, lstrip_idempotent. Qed.

Lemma rstrip_snoc_space (s : pystr) (c : N) :
  is_space c = true -> rstrip (s ++ [c]) = rstrip s.
Proof.
  intros H. unfold rstrip. rewrite rev_app_distr. simpl. now rewrite H.
Qed.

(** Trimming a trimmed string changes nothing. *)
Lemma strip_idempotent (s : pystr) : strip (strip s) = strip s.
Proof.
  unfold strip. pose proof (lstrip_head s) as H.
  destruct (lstrip s) as [|c t]; [reflexivity|].
  rewrite (rstrip_cons_not_space _ _ H), (lstrip_not_space _ _ H).
  rewrite <- (rstrip_cons_not_space _ _ H). apply rstrip_idempotent.
Qed.

(** The newline Tk appends is trimmed away. *)
Lemma strip_text_get (s : pystr) : strip (text_get s) = strip s.
Proof.
  unfold strip, text_get, nl.
  rewrite (lstrip_snoc_space s 10 eq_refl).
  destruct (lstrip s) as [|c t]; [reflexivity|].
  now apply (rstrip_snoc_space (c :: t) 10).
Qed.

Lemma startswith_refl (s : pystr) : startswith s s = true.
Proof. induction s as [|c s IH]; simpl; [|rewrite N.eqb_refl]; auto. Qed.

Lemma contains_refl (s : pystr) : contains s s = true.
Proof. destruct s; simpl; [reflexivity|]. now rewrite N.eqb_refl, startswith_refl. Qed.

(** ** The handlers of the window *)

(** A request that the window starts carries the trimmed input, which is
    not empty and is unchanged by trimming again; its codes are registry
    codes, the target being ["auto"] exactly when the target box reads
    ["Auto Detect"]; and the in-flight flag is then set.  Such a text
    passes the validation of the service as soon as it is at most 5000
    characters long. *)
Theorem started_request_is_trimmed (s s' : gui_handlers.Gui)
    (txt source_lang target_lang : pystr) :
  gui_handlers.translate_text s
  = gui_handlers.Started (txt, source_lang, target_lang) s' ->
  gui_handlers.is_translating s = false
  /\ txt = strip (input_text (gui_handlers.widgets s))
  /\ strip txt = txt
  /\ txt <> []
  /\ In source_lang (values LANGUAGES)
  /\ In target_lang (values LANGUAGES)
  /\ (target_lang = py "auto"
      <-> target_lang_var (gui_handlers.widgets s) = py "Auto Detect")
  /\ gui_handlers.is_translating s' = true
  /\ (forall tr, (len txt <= 5000)%N -> passes_validation (init tr) txt).
Proof.
  unfold gui_handlers.translate_text.
  destruct (gui_handlers.is_translating s) eqn:Hflag; [discriminate|].
  rewrite strip_text_get.
  destruct (strip (input_text (gui_handlers.widgets s))) as [|c t] eqn:Hstrip;
    [discriminate|].
  simpl negb. cbv iota. intros H. injection H as <- <- <- <-.
  assert (Hidem : strip (c :: t) = c :: t)
    by (rewrite <- Hstrip; apply strip_idempotent).
  refine (conj eq_refl (conj eq_refl (conj Hidem (conj _ (conj _ (conj _
            (conj _ (conj eq_refl _)))))))).
  - discriminate.
  - apply get_language_code_in_registry.
  - apply get_language_code_in_registry.
  - apply auto_code_only_for_sentinel.
  - intros tr Hlen. split; [|exact Hlen]. rewrite Hidem. discriminate.
Qed.

Lemma started_request_is_trimmed_witness :
  let s := gui_handlers.set_input_text gui_handlers.initial
             (py "  good morning  ") in
  gui_handlers.translate_text s
  = gui_handlers.Started (py "good morning", py "auto", py "es")
      (gui_handlers.start_translation s)
  /\ strip (py "good morning") = py "good morning".
Proof.
  intros s.
  assert (H : gui_handlers.translate_text s
              = gui_handlers.Started (py "good morning", py "auto", py "es")
                  (gui_handlers.start_translation s)) by reflexivity.
  split; [exact H|].
  now destruct (started_request_is_trimmed _ _ _ _ _ H) as (_ & _ & Hs & _).
Defined.

Section Window.

Variable lower : pystr -> pystr.

Lemma on_text_change_same_output (s : gui_handlers.Gui) :
  same_output s (gui_handlers.on_text_change s).
Proof.
  unfold same_output, gui_handlers.on_text_change.
  destruct (_ && _); repeat split; reflexivity.
Qed.

Lemma on_text_change_button (s : gui_handlers.Gui) :
  gui_handlers.is_translating s = true ->
  gui_handlers.translate_button_enabled (gui_handlers.on_text_change s)
  = false.
Proof.
  intros H. unfold gui_handlers.on_text_change.
  rewrite H, andb_false_r. reflexivity.
Qed.

Lemma on_language_change_same (s : gui_handlers.Gui) :
  same_output s (gui_handlers.on_language_change s)
  /\ gui_handlers.translate_button_enabled (gui_handlers.on_language_change s)
     = gui_handlers.translate_button_enabled s.
Proof.
  unfold same_output, gui_handlers.on_language_change.
  destruct (str_eqb _ _); repeat split; reflexivity.
Qed.

Lemma on_source_lang_search_same (s : gui_handlers.Gui) :
  same_output s (gui_handlers.on_source_lang_search lower s)
  /\ gui_handlers.translate_button_enabled
       (gui_handlers.on_source_lang_search lower s)
     = gui_handlers.translate_button_enabled s.
Proof.
  unfold same_output, gui_handlers.on_source_lang_search.
  destruct (truthy _); [destruct (gui_handlers.exact_match _ _ _)|];
    repeat split; reflexivity.
Qed.

Lemma on_target_lang_search_same (s : gui_handlers.Gui) :
  same_output s (gui_handlers.on_target_lang_search lower s)
  /\ gui_handlers.translate_button_enabled
       (gui_handlers.on_target_lang_search lower s)
     = gui_handlers.translate_button_enabled s.
Proof.
  unfold same_output, gui_handlers.on_target_lang_search.
  destruct (truthy _); [destruct (gui_handlers.exact_match _ _ _)|];
    repeat split; reflexivity.
Qed.

Lemma swap_languages_flight (s : gui_handlers.Gui) :
  gui_handlers.is_translating (gui_handlers.swap_languages s)
  = gui_handlers.is_translating s
  /\ gui_handlers.translate_button_enabled (gui_handlers.swap_languages s)
     = gui_handlers.translate_button_enabled s.
Proof.
  unfold gui_handlers.swap_languages.
  destruct (str_eqb _ _); [split; reflexivity|].
  destruct (truthy _); split; reflexivity.
Qed.

Lemma step_keeps_flight (s : gui_handlers.Gui) (ev : gui_handlers.event) :
  not_complete ev ->
  gui_handlers.is_translating s = true
  /\ gui_handlers.translate_button_enabled s = false ->
  gui_handlers.is_translating (gui_handlers.step lower s ev) = true
  /\ gui_handlers.translate_button_enabled (gui_handlers.step lower s ev)
     = false.
Proof.
  intros Hev [Hflag Hbutton].
  destruct ev; try contradiction; unfold gui_handlers.step.
  - destruct (on_text_change_same_output (gui_handlers.set_input_text s t))
      as (H1 & _). split; [now rewrite H1|].
    now apply on_text_change_button.
  - destruct (on_source_lang_search_same (gui_handlers.set_source_lang_var s v))
      as ((H1 & _) & H2). now rewrite H1, H2.
  - destruct (on_target_lang_search_same (gui_handlers.set_target_lang_var s v))
      as ((H1 & _) & H2). now rewrite H1, H2.
  - destruct (on_language_change_same (gui_handlers.set_source_lang_var s v))
      as ((H1 & _) & H2). now rewrite H1, H2.
  - destruct (on_language_change_same (gui_handlers.set_target_lang_var s v))
      as ((H1 & _) & H2). now rewrite H1, H2.
  - destruct (swap_languages_flight s) as (H1 & H2). now rewrite H1, H2.
  - unfold gui_handlers.paste_text.
    destruct (truthy clipboard_text); [|now split].
    destruct (on_text_change_same_output
                (gui_handlers.set_input_text s clipboard_text)) as (H1 & _).
    split; [now rewrite H1|]. now apply on_text_change_button.
  - unfold gui_handlers.clear_input.
    destruct (on_text_change_same_output (gui_handlers.set_input_text s []))
      as (H1 & _).
    split; [now rewrite H1|]. now apply on_text_change_button.
  - now split.
  - unfold gui_handlers.translate_text. rewrite Hflag. now split.
Qed.

(** Single flight: once a request is started, no edit, search, selection,
    swap, paste, clearing or further translate action clears the in-flight
    flag or enables the translate button; until a worker result is
    delivered, every translate action is ignored. *)
Theorem single_flight (s s' : gui_handlers.Gui) (request : call)
    (events : list gui_handlers.event) :
  gui_handlers.translate_text s = gui_handlers.Started request s' ->
  Forall not_complete events ->
  gui_handlers.translate_text (gui_handlers.run lower s' events)
  = gui_handlers.Ignored
  /\ gui_handlers.translate_button_enabled (gui_handlers.run lower s' events)
     = false.
Proof.
  intros Hstart Hevents.
  assert (Hinv : gui_handlers.is_translating s' = true
                 /\ gui_handlers.translate_button_enabled s' = false).
  { unfold gui_handlers.translate_text in Hstart.
    destruct (gui_handlers.is_translating s); [discriminate|].
    destruct (negb _); [discriminate|].
    injection Hstart as _ <-. split; reflexivity. }
  clear Hstart. revert s' Hinv.
  induction Hevents as [|ev events Hev _ IH]; intros s' Hinv.
  - destruct Hinv as [Hflag Hbutton]. split; [|exact Hbutton].
    unfold gui_handlers.translate_text, gui_handlers.run. simpl fold_left.
    now rewrite Hflag.
  - unfold gui_handlers.run. simpl fold_left. apply IH.
    now apply step_keeps_flight.
Qed.

End Window.

Lemma single_flight_witness :
  let s := gui_handlers.set_input_text gui_handlers.initial (py "hello") in
  let events := [ gui_handlers.Translate; gui_handlers.Swap;
                  gui_handlers.EditInput (py "hello again");
                  gui_handlers.TypeTarget (py "fre");
                  gui_handlers.Translate ] in
  gui_handlers.translate_text
    (gui_handlers.run ascii_lower (gui_handlers.start_translation s) events)
  = gui_handlers.Ignored
  /\ gui_handlers.translate_button_enabled
       (gui_handlers.run ascii_lower (gui_handlers.start_translation s) events)
     = false.
Proof.
  intros s events.
  apply (single_flight ascii_lower s (gui_handlers.start_translation s)
           (py "hello", py "auto", py "es")).
  - reflexivity.
  - repeat constructor.
Defined.

Section WindowOutput.

Variable lower : pystr -> pystr.

Lemma same_output_keeps_match (s s' : gui_handlers.Gui) :
  same_output s s' -> output_buttons_match s -> output_buttons_match s'.
Proof.
  unfold output_buttons_match. intros (_ & H1 & H2) H. now rewrite H1, H2.
Qed.

Lemma same_output_trans (s1 s2 s3 : gui_handlers.Gui) :
  same_output s1 s2 -> same_output s2 s3 -> same_output s1 s3.
Proof.
  intros (A1 & A2 & A3) (B1 & B2 & B3). repeat split; congruence.
Qed.

Lemma cleared_output_match (s : gui_handlers.Gui) :
  output_buttons_match (gui_handlers.clear_output s).
Proof.
  unfold output_buttons_match, gui_handlers.clear_output.
  cbn [gui_handlers.output_buttons_enabled gui_handlers.set_output_buttons
       gui_handlers.widgets gui_handlers.set_output_text
       gui_handlers.with_widgets output_text].
  split; [discriminate | congruence].
Qed.

Lemma swap_languages_match (s : gui_handlers.Gui) :
  output_buttons_match s -> output_buttons_match (gui_handlers.swap_languages s).
Proof.
  intros H. unfold gui_handlers.swap_languages.
  destruct (str_eqb _ _); [exact H|].
  destruct (truthy _).
  - apply cleared_output_match.
  - exact H.
Qed.

Lemma translation_complete_match (s : gui_handlers.Gui)
    (translated_text error : option pystr) :
  output_buttons_match s ->
  output_buttons_match
    (fst (gui_handlers.translation_complete s translated_text error)).
Proof.
  intros H. unfold gui_handlers.translation_complete.
  destruct (gui_handlers.truthy_opt error).
  - apply (same_output_keeps_match _ _ (on_text_change_same_output _)).
    exact H.
  - destruct translated_text as [[|c t]|]; cbn [gui_handlers.truthy_opt truthy fst].
    + apply (same_output_keeps_match _ _ (on_text_change_same_output _)).
      exact H.
    + apply (same_output_keeps_match _ _ (on_text_change_same_output _)).
      unfold output_buttons_match.
      cbn [gui_handlers.output_buttons_enabled gui_handlers.set_output_buttons
           gui_handlers.widgets gui_handlers.set_output_text
           gui_handlers.with_widgets output_text].
      split; [discriminate | reflexivity].
    + apply (same_output_keeps_match _ _ (on_text_change_same_output _)).
      exact H.
Qed.

Lemma step_keeps_output_buttons (s : gui_handlers.Gui)
    (ev : gui_handlers.event) :
  output_buttons_match s ->
  output_buttons_match (gui_handlers.step lower s ev).
Proof.
  intros H. destruct ev; unfold gui_handlers.step.
  - apply (same_output_keeps_match _ _ (on_text_change_same_output _)).
    exact H.
  - apply (same_output_keeps_match _ _
             (proj1 (on_source_lang_search_same lower _))).
    exact H.
  - apply (same_output_keeps_match _ _
             (proj1 (on_target_lang_search_same lower _))).
    exact H.
  - apply (same_output_keeps_match _ _ (proj1 (on_language_change_same _))).
    exact H.
  - apply (same_output_keeps_match _ _ (proj1 (on_language_change_same _))).
    exact H.
  - now apply swap_languages_match.
  - unfold gui_handlers.paste_text.
    destruct (truthy clipboard_text); [|exact H].
    apply (same_output_keeps_match _ _ (on_text_change_same_output _)).
    exact H.
  - unfold gui_handlers.clear_input.
    apply (same_output_keeps_match _ _ (on_text_change_same_output _)).
    exact H.
  - apply cleared_output_match.
  - unfold gui_handlers.translate_text.
    destruct (gui_handlers.is_translating s); [exact H|].
    destruct (negb _); exact H.
  - now apply translation_complete_match.
Qed.

(** From the initial window, after any sequence of user actions and worker
    results, the buttons that copy, clear and save the translation are
    enabled exactly when the output widget is not empty. *)
Theorem output_buttons_follow_output (events : list gui_handlers.event) :
  output_buttons_match (gui_handlers.run lower gui_handlers.initial events).
Proof.
  assert (H : output_buttons_match gui_handlers.initial).
  { unfold output_buttons_match. simpl. split; [discriminate | congruence]. }
  revert H. generalize gui_handlers.initial. unfold gui_handlers.run.
  induction events as [|ev events IH]; intros s H; simpl fold_left; [exact H|].
  apply IH. now apply step_keeps_output_buttons.
Qed.

End WindowOutput.

(** ** Swapping the languages *)

Ltac gui_fields :=
  cbn [gui_handlers.widgets gui_handlers.is_translating
       gui_handlers.source_lang_combo_values
       gui_handlers.target_lang_combo_values
       gui_handlers.translate_button_enabled
       gui_handlers.output_buttons_enabled
       gui_handlers.with_widgets gui_handlers.set_input_text
       gui_handlers.set_output_text gui_handlers.set_source_lang_var
       gui_handlers.set_target_lang_var gui_handlers.set_source_values
       gui_handlers.set_target_values gui_handlers.set_is_translating
       gui_handlers.set_translate_button gui_handlers.set_output_buttons
       gui_handlers.clear_output gui_handlers.start_translation
       input_text output_text source_lang_var target_lang_var] in *.

(** With ["Auto Detect"] as source nothing is swapped.  Otherwise the two
    language boxes exchange their contents and, when there is a translation,
    the trimmed translation becomes the input and the output is cleared;
    without one the texts stay.  A swap never makes the target
    ["Auto Detect"] unless it already was. *)
Theorem swap_languages_exchange (s : gui_handlers.Gui) :
  let w := gui_handlers.widgets s in
  let w' := gui_handlers.widgets (gui_handlers.swap_languages s) in
  let out := strip (output_text w) in
  (source_lang_var w = py "Auto Detect" -> gui_handlers.swap_languages s = s)
  /\ (source_lang_var w <> py "Auto Detect" ->
      source_lang_var w' = target_lang_var w
      /\ target_lang_var w' = source_lang_var w
      /\ (out <> [] ->
          input_text w' = out /\ output_text w' = []
          /\ gui_handlers.output_buttons_enabled
               (gui_handlers.swap_languages s) = false)
      /\ (out = [] ->
          input_text w' = input_text w /\ output_text w' = output_text w))
  /\ (target_lang_var w' = py "Auto Detect" ->
      target_lang_var w = py "Auto Detect").
Proof.
  intros w w' out. subst w w' out. unfold gui_handlers.swap_languages.
  destruct (str_eqb (source_lang_var (gui_handlers.widgets s))
                    (py "Auto Detect")) eqn:E.
  - apply str_eqb_eq in E. split; [reflexivity|].
    split; [intros H; contradiction | auto].
  - apply str_eqb_neq in E. gui_fields. rewrite strip_text_get.
    split; [intros H; contradiction|].
    destruct (strip (output_text (gui_handlers.widgets s))) as [|c t] eqn:Hout;
      cbn [truthy]; gui_fields.
    + split; [|intros H; contradiction].
      intros _. refine (conj eq_refl (conj eq_refl (conj _ _))).
      * intros H. congruence.
      * intros _. split; reflexivity.
    + split; [|intros H; contradiction].
      intros _. refine (conj eq_refl (conj eq_refl (conj _ _))).
      * intros _. refine (conj eq_refl (conj eq_refl eq_refl)).
      * intros H. discriminate H.
Qed.

Lemma swap_languages_exchange_witness :
  let s := gui_handlers.set_output_text
             (gui_handlers.set_source_lang_var gui_handlers.initial
                (py "English"))
             (py "hola ") in
  let w' := gui_handlers.widgets (gui_handlers.swap_languages s) in
  source_lang_var w' = py "Spanish"
  /\ target_lang_var w' = py "English"
  /\ input_text w' = py "hola"
  /\ output_text w' = [].
Proof.
  intros s w'.
  destruct (swap_languages_exchange s) as (_ & H & _).
  destruct H as (H1 & H2 & H3 & _); [intros E; discriminate E|].
  destruct H3 as (H3 & H4 & _); [vm_compute; discriminate|].
  subst w'. rewrite H1, H2, H3, H4. repeat split; reflexivity.
Defined.

(** Swapping twice restores both language boxes when neither reads
    ["Auto Detect"]. *)
Theorem swap_languages_twice (s : gui_handlers.Gui) :
  source_lang_var (gui_handlers.widgets s) <> py "Auto Detect" ->
  target_lang_var (gui_handlers.widgets s) <> py "Auto Detect" ->
  let s2 := gui_handlers.swap_languages (gui_handlers.swap_languages s) in
  source_lang_var (gui_handlers.widgets s2)
  = source_lang_var (gui_handlers.widgets s)
  /\ target_lang_var (gui_handlers.widgets s2)
     = target_lang_var (gui_handlers.widgets s).
Proof.
  intros Hsrc Htgt s2. subst s2.
  destruct (swap_languages_exchange s) as (_ & H1 & _).
  destruct (H1 Hsrc) as (A1 & A2 & _).
  destruct (swap_languages_exchange (gui_handlers.swap_languages s))
    as (_ & H2 & _).
  destruct H2 as (B1 & B2 & _); [now rewrite A1|].
  now rewrite B1, B2, A1, A2.
Qed.

Lemma swap_languages_twice_witness :
  let s := gui_handlers.set_source_lang_var gui_handlers.initial
             (py "English") in
  let s2 := gui_handlers.swap_languages (gui_handlers.swap_languages s) in
  source_lang_var (gui_handlers.widgets s2) = py "English"
  /\ target_lang_var (gui_handlers.widgets s2) = py "Spanish".
Proof.
  intros s s2.
  apply (swap_languages_twice s); intros E; discriminate E.
Defined.

(** After a swap that moved a translation into the input, a translate
    action asks for the translation back: the request carries the trimmed
    former translation with the two codes exchanged. *)
Theorem swap_then_translate (s : gui_handlers.Gui) :
  gui_handlers.is_translating s = false ->
  source_lang_var (gui_handlers.widgets s) <> py "Auto Detect" ->
  strip (output_text (gui_handlers.widgets s)) <> [] ->
  gui_handlers.translate_text (gui_handlers.swap_languages s)
  = gui_handlers.Started
      (strip (output_text (gui_handlers.widgets s)),
       get_language_code (target_lang_var (gui_handlers.widgets s)),
       get_language_code (source_lang_var (gui_handlers.widgets s)))
      (gui_handlers.start_translation (gui_handlers.swap_languages s)).
Proof.
  intros Hflag Hsrc Hout.
  destruct (swap_languages_exchange s) as (_ & H & _).
  destruct (H Hsrc) as (H1 & H2 & H3 & _).
  destruct (H3 Hout) as (H4 & _).
  unfold gui_handlers.translate_text.
  rewrite (proj1 (swap_languages_flight s)), Hflag.
  rewrite strip_text_get, H1, H2, H4, strip_idempotent.
  now rewrite (truthy_true _ Hout).
Qed.

Lemma swap_then_translate_witness :
  let s := gui_handlers.set_output_text
             (gui_handlers.set_source_lang_var gui_handlers.initial
                (py "English"))
             (py "hola") in
  gui_handlers.translate_text (gui_handlers.swap_languages s)
  = gui_handlers.Started
      (strip (py "hola"), get_language_code (py "Spanish"),
       get_language_code (py "English"))
      (gui_handlers.start_translation (gui_handlers.swap_languages s)).
Proof.
  intros s. apply (swap_then_translate s).
  - reflexivity.
  - intros E. discriminate E.
  - vm_compute. discriminate.
Defined.

Lemma language_listings_sentinel :
  ~ In (py "Auto Detect") target_lang_values
  /\ In (py "Auto Detect") get_language_names.
Proof.
  split.
  - unfold target_lang_values. intros H. apply filter_In in H as [_ H].
    now rewrite str_eqb_refl in H.
  - apply (Permutation_in _ (Permutation_sym (sorted_perm _))).
    vm_compute. left. reflexivity.
Qed.

(** ** Searching in the language boxes *)

Lemma exact_match_some (lower : pystr -> pystr) (search_text : pystr)
    (all_languages : list pystr) (l : pystr) :
  gui_handlers.exact_match lower search_text all_languages = Some l ->
  In l all_languages /\ lower l = search_text.
Proof.
  intros H. apply find_some in H as [Hin Heq].
  split; [exact Hin | now apply str_eqb_eq].
Qed.

(** Typing in the source box: an empty search restores the full listing;
    otherwise the offered values are names of the listing, and when the
    typed text equals a name up to case the box is set to that name, which
    is then among the offered values.  Nothing else changes the box. *)
Theorem source_search_selects_offered (lower : pystr -> pystr)
    (s : gui_handlers.Gui) :
  let s' := gui_handlers.on_source_lang_search lower s in
  let typed := source_lang_var (gui_handlers.widgets s) in
  let chosen := source_lang_var (gui_handlers.widgets s') in
  (lower typed = [] ->
   gui_handlers.source_lang_combo_values s' = get_language_names)
  /\ (forall v, In v (gui_handlers.source_lang_combo_values s') ->
                In v get_language_names)
  /\ (chosen = typed
      \/ (In chosen (gui_handlers.source_lang_combo_values s')
          /\ lower chosen = lower typed)).
Proof.
  intros s' typed chosen. subst s' typed chosen.
  unfold gui_handlers.on_source_lang_search.
  destruct (lower (source_lang_var (gui_handlers.widgets s)))
    as [|c t] eqn:Hsearch; cbn [truthy].
  - gui_fields. split; [reflexivity|]. split; [auto | now left].
  - split; [discriminate|].
    destruct (gui_handlers.exact_match lower (c :: t) get_language_names)
      as [l|] eqn:Hmatch; gui_fields.
    + apply exact_match_some in Hmatch as [Hin Heq].
      split; [intros v Hv; now apply filter_In in Hv|].
      right. split; [|exact Heq].
      apply filter_In. split; [exact Hin|].
      rewrite Heq. apply contains_refl.
    + split; [intros v Hv; now apply filter_In in Hv | now left].
Qed.

Lemma source_search_selects_offered_witness :
  let s := gui_handlers.set_source_lang_var gui_handlers.initial
             (py "auto detect") in
  source_lang_var
    (gui_handlers.widgets (gui_handlers.on_source_lang_search ascii_lower s))
  = py "Auto Detect"
  /\ In (py "Auto Detect")
        (gui_handlers.source_lang_combo_values
           (gui_handlers.on_source_lang_search ascii_lower s)).
Proof.
  intros s.
  assert (Hsel : source_lang_var
                   (gui_handlers.widgets
                      (gui_handlers.on_source_lang_search ascii_lower s))
                 = py "Auto Detect") by (vm_compute; reflexivity).
  split; [exact Hsel|].
  destruct (source_search_selects_offered ascii_lower s) as (_ & _ & H).
  destruct H as [H|[H _]].
  - rewrite Hsel in H. discriminate H.
  - now rewrite Hsel in H.
Defined.

(** Typing in the target box never offers ["Auto Detect"] and never sets
    the box to it: the offered values are target names, and the box either
    keeps the typed text or is set to an offered target name that equals
    the typed text up to case. *)
Theorem target_search_excludes_sentinel (lower : pystr -> pystr)
    (s : gui_handlers.Gui) :
  let s' := gui_handlers.on_target_lang_search lower s in
  let typed := target_lang_var (gui_handlers.widgets s) in
  let chosen := target_lang_var (gui_handlers.widgets s') in
  (forall v, In v (gui_handlers.target_lang_combo_values s') ->
             In v target_lang_values)
  /\ ~ In (py "Auto Detect") (gui_handlers.target_lang_combo_values s')
  /\ (chosen = typed
      \/ (In chosen (gui_handlers.target_lang_combo_values s')
          /\ lower chosen = lower typed
          /\ chosen <> py "Auto Detect")).
Proof.
  intros s' typed chosen. subst s' typed chosen.
  destruct language_listings_sentinel as [Hno _].
  unfold gui_handlers.on_target_lang_search.
  fold target_lang_values.
  destruct (lower (target_lang_var (gui_handlers.widgets s)))
    as [|c t] eqn:Hsearch; cbn [truthy].
  - gui_fields. split; [auto|]. split; [exact Hno | now left].
  - assert (Hsub : forall v,
               In v (filter (fun l => contains (c :: t) (lower l))
                            target_lang_values) ->
               In v target_lang_values)
      by (intros v Hv; now apply filter_In in Hv).
    destruct (gui_handlers.exact_match lower (c :: t) target_lang_values)
      as [l|] eqn:Hmatch; gui_fields.
    + apply exact_match_some in Hmatch as [Hin Heq].
      split; [exact Hsub|]. split; [intros H; apply Hno; now apply Hsub|].
      right. split; [|split; [exact Heq|]].
      * apply filter_In. split; [exact Hin|].
        rewrite Heq. apply contains_refl.
      * intros E. apply Hno. now rewrite <- E.
    + split; [exact Hsub|]. split; [intros H; apply Hno; now apply Hsub|].
      now left.
Qed.

Lemma target_search_excludes_sentinel_witness :
  let s := gui_handlers.set_target_lang_var gui_handlers.initial
             (py "auto detect") in
  ~ In (py "Auto Detect")
       (gui_handlers.target_lang_combo_values
          (gui_handlers.on_target_lang_search ascii_lower s)).
Proof.
  intros s.
  exact (proj1 (proj2 (target_search_excludes_sentinel ascii_lower s))).
Defined.

(** ** From the worker back to the window *)



(** When the result of the service reaches [translation_complete], the
    in-flight flag is cleared and the translate button is enabled exactly
    when the trimmed input is not empty.  A failure is shown in the error
    dialog with the service's message and leaves the output as it was; a
    non-empty translation replaces the output and enables its buttons; an
    empty translation shows nothing and leaves the output as it was. *)
Theorem service_result_displayed (lower : pystr -> pystr)
    (service : TranslationService) (txt source_lang target_lang : pystr)
    (log : list call) (p : option pystr * option pystr)
    (s : gui_handlers.Gui) :
  fst (translator.translate_text lower service txt source_lang target_lang log)
  = Val p ->
  let s' := fst (gui_handlers.translation_complete s (fst p) (snd p)) in
  let dialog := snd (gui_handlers.translation_complete s (fst p) (snd p)) in
  gui_handlers.is_translating s' = false
  /\ gui_handlers.translate_button_enabled s'
     = (0 <? len (strip (input_text (gui_handlers.widgets s))))%N
  /\ match p with
     | (Some t, None) =>
         dialog = None
         /\ (t <> [] ->
             output_text (gui_handlers.widgets s') = t
             /\ gui_handlers.output_buttons_enabled s' = true)
         /\ (t = [] ->
             output_text (gui_handlers.widgets s')
             = output_text (gui_handlers.widgets s)
             /\ gui_handlers.output_buttons_enabled s'
                = gui_handlers.output_buttons_enabled s)
     | (None, Some m) =>
         dialog = Some m
         /\ output_text (gui_handlers.widgets s')
            = output_text (gui_handlers.widgets s)
         /\ gui_handlers.output_buttons_enabled s'
            = gui_handlers.output_buttons_enabled s
     | _ => False
     end.
Proof.
  intros Hrun s' dialog. subst s' dialog.
  pose proof (translate_text_outcomes lower service txt source_lang
                target_lang log) as Hout.
  rewrite Hrun in Hout.
  assert (Hbutton : forall s0,
             gui_handlers.is_translating s0 = false ->
             gui_handlers.is_translating (gui_handlers.on_text_change s0)
             = false
             /\ gui_handlers.translate_button_enabled
                  (gui_handlers.on_text_change s0)
                = (0 <? len (strip (input_text (gui_handlers.widgets s0))))%N).
  { intros s0 H0. split.
    - now rewrite (proj1 (on_text_change_same_output s0)).
    - unfold gui_handlers.on_text_change.
      rewrite H0, strip_text_get, andb_true_r.
      now destruct (0 <? len (strip (input_text (gui_handlers.widgets s0))))%N. }
  unfold gui_handlers.translation_complete.
  destruct p as [[t|] [m|]]; try contradiction; cbn [fst snd].
  - destruct t as [|c t]; cbn [gui_handlers.truthy_opt truthy fst snd].
    + destruct (Hbutton (gui_handlers.set_translate_button
                           (gui_handlers.set_is_translating s false) true)
                  eq_refl) as [B1 B2].
      destruct (on_text_change_same_output
                  (gui_handlers.set_translate_button
                     (gui_handlers.set_is_translating s false) true))
        as (_ & O1 & O2).
      refine (conj B1 (conj B2 (conj eq_refl (conj _ _)))).
      * intros H. congruence.
      * intros _. exact (conj O2 O1).
    + destruct (Hbutton (gui_handlers.set_output_buttons
                           (gui_handlers.set_output_text
                              (gui_handlers.set_translate_button
                                 (gui_handlers.set_is_translating s false)
                                 true)
                              (c :: t))
                           true)
                  eq_refl) as [B1 B2].
      destruct (on_text_change_same_output
                  (gui_handlers.set_output_buttons
                     (gui_handlers.set_output_text
                        (gui_handlers.set_translate_button
                           (gui_handlers.set_is_translating s false) true)
                        (c :: t))
                     true))
        as (_ & O1 & O2).
      refine (conj B1 (conj B2 (conj eq_refl (conj _ _)))).
      * intros _. exact (conj O2 O1).
      * intros H. discriminate H.
  - destruct Hout as [Hm _]. destruct m as [|c m]; [congruence|].
    cbn [gui_handlers.truthy_opt truthy fst snd].
    destruct (Hbutton (gui_handlers.set_translate_button
                         (gui_handlers.set_is_translating s false) true)
                eq_refl) as [B1 B2].
    destruct (on_text_change_same_output
                (gui_handlers.set_translate_button
                   (gui_handlers.set_is_translating s false) true))
      as (_ & O1 & O2).
    refine (conj B1 (conj B2 (conj eq_refl (conj O2 O1)))).
Qed.

Lemma service_result_displayed_witness :
  let s := gui_handlers.start_translation
             (gui_handlers.set_input_text gui_handlers.initial (py "hello")) in
  let s' := fst (gui_handlers.translation_complete s (Some (py "hola")) None) in
  gui_handlers.is_translating s' = false
  /\ gui_handlers.translate_button_enabled s' = true
  /\ output_text (gui_handlers.widgets s') = py "hola"
  /\ gui_handlers.output_buttons_enabled s' = true.
Proof.
  intros s s'.
  destruct (service_result_displayed ascii_lower
              (init (backend_returning (py "hola")))
              (py "hello") (py "auto") (py "es") []
              (Some (py "hola"), None) s eq_refl)
    as (H1 & H2 & _ & H3 & _).
  destruct H3 as [H3 H4]; [discriminate|].
  subst s'. cbn [fst snd] in *.
  refine (conj H1 (conj _ (conj H3 H4))).
  rewrite H2. reflexivity.
Defined.

(** The first three rules look at the class only: a refused connection
    reported by an exception outside the [requests] classes (the builtin
    [ConnectionRefusedError], an error of another HTTP client) is matched
    by its message and ends as [UnknownError]. *)
Example connection_refused_other_class :
  let e := {| exc_type := OtherError;
              exc_str := py "[Errno 111] Connection refused" |} in
  let m := py "Translation failed: [Errno 111] Connection refused" in
  translate_text ascii_lower (init (backend_raising e))
    (py "hello") (py "en") (py "es") []
  = (Val (None, Some m), [(py "hello", py "en", py "es")])
  /\ kind_of_message m = Some UnknownError
  /\ classify ascii_lower e = UnknownError.
Proof. repeat split; vm_compute; reflexivity. Qed.
